(** * Tenant access decisions of the multi-tenant plugin

    A shallow embedding of [src/lib/helpers.ts] and [src/plugin.ts]:
    the tenant-id extractor, the cookie-derived tenant selector, the
    membership lookup, the filter options of tenant relationship fields,
    the reverse lookup of the users of given tenants, the four access
    functions the plugin attaches to a collection, and the plugin's
    rewrite of the host configuration.

    The TypeScript sources type most inputs as [any]; the embedding
    therefore works over a datatype of JavaScript values and makes every
    place where the JavaScript would throw explicit in an error monad.

    Scope of the model.  Values are plain data: primitives, objects given
    by their own properties, arrays, and [Headers] instances; there are
    no getters, proxies or user-defined methods.  A property read finds
    own properties only, so a dynamic key that names a member every
    object inherits ([constructor], [toString], ...) reads as [undefined].
    Numbers are the integers and [NaN]; strings are byte sequences.
    An [async] function is modelled by its outcome: the value it is
    fulfilled with, or what it is rejected with. *)

From Stdlib Require Import ZArith Ascii String List Bool Lia DecimalString DecimalPos.
From stdpp Require Import base option list strings gmap.

Local Open Scope string_scope.
Local Open Scope Z_scope.
Set Warnings "-register-all".

(** ** JavaScript values *)

(** Numbers. The code under study only produces integers ([parseInt]) and
    [NaN]; host-supplied identifiers are integers as well.  Integers are
    kept as mathematical integers, which agrees with IEEE doubles on the
    safe range (magnitude below 2^53). *)
Inductive JsNum : Type :=
  | NaN
  | Int (z : Z).

(** Values.  [JsObject] is a plain data object given by its own properties
    (first binding of a key wins); [JsHeaders] is an instance of the Fetch
    [Headers] class, which exposes header lines through its [get] method
    and not as properties (the entries are keyed by the lower-case header
    name, as the class keeps them).  Members inherited from built-in prototypes
    ([constructor], [toString], ...) are not properties of the model:
    the methods the source calls ([split], [trim], [find], [map], ...) are
    modelled as operations below. *)
Inductive JsValue : Type :=
  | JsUndefined
  | JsNull
  | JsBoolean (b : bool)
  | JsNumber (n : JsNum)
  | JsString (s : string)
  | JsObject (props : list (string * JsValue))
  | JsArray (items : list JsValue)
  | JsHeaders (entries : list (string * string)).

(** What a JavaScript computation can throw: the engine's [TypeError], or
    an arbitrary value thrown by host code (a delegate rule, the store). *)
Inductive JsError : Type :=
  | TypeError (msg : string)
  | Thrown (v : JsValue).

(** Result of running a piece of JavaScript: normal completion, or an
    exception (for an [async] function: fulfilled or rejected). *)
Inductive Outcome (A : Type) : Type :=
  | Returns (a : A)
  | Throws (e : JsError).
Arguments Returns {A} a.
Arguments Throws {A} e.

#[global] Instance Outcome_ret : MRet Outcome := fun A a => Returns a.
#[global] Instance Outcome_bind : MBind Outcome := fun A B f m =>
  match m with
  | Returns a => f a
  | Throws e => Throws e
  end.
#[global] Instance Outcome_fmap : FMap Outcome := fun A B f m =>
  match m with
  | Returns a => Returns (f a)
  | Throws e => Throws e
  end.

(** ** String operations used by the source *)

(** Strings are sequences of bytes.  White space, for [trim] and
    [parseInt], is the ASCII part of JavaScript's: tab, line feed,
    vertical tab, form feed, carriage return and space. *)
Definition isWhiteSpace (c : ascii) : bool :=
  let n := nat_of_ascii c in
  ((9 <=? n)%nat && (n <=? 13)%nat) || (n =? 32)%nat.

Definition isDigit (c : ascii) : bool :=
  let n := nat_of_ascii c in
  ((48 <=? n)%nat && (n <=? 57)%nat).

Definition digitValue (c : ascii) : Z := Z.of_nat (nat_of_ascii c) - 48.

Fixpoint trimStart (s : string) : string :=
  match s with
  | String c r => if isWhiteSpace c then trimStart r else s
  | EmptyString => EmptyString
  end.

Fixpoint trimEnd (s : string) : string :=
  match s with
  | String c r =>
      match trimEnd r with
      | EmptyString => if isWhiteSpace c then EmptyString else String c EmptyString
      | r' => String c r'
      end
  | EmptyString => EmptyString
  end.

(** [s.trim()] *)
Definition trim (s : string) : string := trimEnd (trimStart s).

(** [s.split(sep)] for a one-character separator: never empty. *)
Fixpoint js_split (sep : ascii) (s : string) : list string :=
  match s with
  | EmptyString => [EmptyString]
  | String c r =>
      if Ascii.eqb c sep then EmptyString :: js_split sep r
      else match js_split sep r with
           | h :: t => String c h :: t
           | [] => [String c EmptyString]
           end
  end.

(** [s.startsWith(p)] *)
Definition startsWith (s p : string) : bool := String.prefix p s.

Fixpoint takeDigits (s : string) : string :=
  match s with
  | String c r => if isDigit c then String c (takeDigits r) else EmptyString
  | EmptyString => EmptyString
  end.

Fixpoint digitsValue (acc : Z) (s : string) : Z :=
  match s with
  | String c r => digitsValue (10 * acc + digitValue c) r
  | EmptyString => acc
  end.

(** [parseInt(s, 10)] on a string (ECMA-262, 19.2.5): skip leading white
    space, read an optional sign, then the longest run of decimal digits;
    [NaN] when that run is empty.  Whatever follows the digits is ignored. *)
Definition parseInt10 (s : string) : JsNum :=
  let s1 := trimStart s in
  let '(negative, s2) :=
    match s1 with
    | String "-" r => (true, r)
    | String "+" r => (false, r)
    | _ => (false, s1)
    end in
  match takeDigits s2 with
  | EmptyString => NaN
  | ds => Int (if negative then - digitsValue 0 ds else digitsValue 0 ds)
  end.

(** [String(n)] for an integer. *)
Definition Z_to_string (z : Z) : string := NilEmpty.string_of_int (Z.to_int z).

(** ** Operations on values *)

(** [!!v] *)
Definition truthy (v : JsValue) : bool :=
  match v with
  | JsUndefined | JsNull => false
  | JsBoolean b => b
  | JsNumber NaN => false
  | JsNumber (Int z) => negb (z =? 0)
  | JsString s => negb (String.eqb s "")
  | JsObject _ | JsArray _ | JsHeaders _ => true
  end.

(** [typeof v] (no value of the model is a function). *)
Definition js_typeof (v : JsValue) : string :=
  match v with
  | JsUndefined => "undefined"
  | JsBoolean _ => "boolean"
  | JsNumber _ => "number"
  | JsString _ => "string"
  | JsNull | JsObject _ | JsArray _ | JsHeaders _ => "object"
  end.

Definition isUndefined (v : JsValue) : bool :=
  match v with JsUndefined => true | _ => false end.

Definition isNull (v : JsValue) : bool :=
  match v with JsNull => true | _ => false end.

Definition isNullish (v : JsValue) : bool := isUndefined v || isNull v.

(** [v === 'literal'] *)
Definition isStringLit (v : JsValue) (lit : string) : bool :=
  match v with JsString s => String.eqb s lit | _ => false end.

(** [Array.isArray(v)] *)
Definition isArray (v : JsValue) : bool :=
  match v with JsArray _ => true | _ => false end.

(** [a ?? b] *)
Definition nullish_or (a b : JsValue) : JsValue := if isNullish a then b else a.

Fixpoint assoc {A : Type} (key : string) (l : list (string * A)) : option A :=
  match l with
  | [] => None
  | (k, v) :: r => if String.eqb k key then Some v else assoc key r
  end.

(** A property key that is a canonical array index ("0", "1", "12", not "01"). *)
Definition indexOfKey (key : string) : option nat :=
  match key with
  | EmptyString => None
  | _ =>
      if String.eqb (takeDigits key) key then
        let n := digitsValue 0 key in
        if String.eqb (Z_to_string n) key then Some (Z.to_nat n) else None
      else None
  end.

(** The own property [key] of a (non-nullish) value, [undefined] when it
    has none. *)
Definition ownProperty (v : JsValue) (key : string) : JsValue :=
  match v with
  | JsObject props => default JsUndefined (assoc key props)
  | JsArray items =>
      if String.eqb key "length" then JsNumber (Int (Z.of_nat (List.length items)))
      else match indexOfKey key with
           | Some i => default JsUndefined (nth_error items i)
           | None => JsUndefined
           end
  | JsString s =>
      if String.eqb key "length" then JsNumber (Int (Z.of_nat (String.length s)))
      else match indexOfKey key with
           | Some i => match String.get i s with
                       | Some c => JsString (String c EmptyString)
                       | None => JsUndefined
                       end
           | None => JsUndefined
           end
  | _ => JsUndefined
  end.

(** [v.key]: a [TypeError] on [undefined] and [null]. *)
Definition js_get (v : JsValue) (key : string) : Outcome JsValue :=
  if isNullish v then Throws (TypeError "Cannot read properties of undefined or null")
  else Returns (ownProperty v key).

(** [v?.key] *)
Definition js_get_opt (v : JsValue) (key : string) : JsValue :=
  if isNullish v then JsUndefined else ownProperty v key.

(** [String(v)], as [parseInt] applies it to its argument.  A plain
    object prints through the inherited [Object.prototype.toString]; an own
    (data, hence not callable) [toString] property shadows it and the
    conversion throws.  An array prints its elements joined by commas,
    [null] and [undefined] as the empty string. *)
Fixpoint js_toString (v : JsValue) : Outcome string :=
  match v with
  | JsUndefined => Returns "undefined"
  | JsNull => Returns "null"
  | JsBoolean b => Returns (if b then "true" else "false")
  | JsNumber NaN => Returns "NaN"
  | JsNumber (Int z) => Returns (Z_to_string z)
  | JsString s => Returns s
  | JsObject props =>
      match assoc "toString" props with
      | Some _ => Throws (TypeError "Cannot convert object to primitive value")
      | None => Returns "[object Object]"
      end
  | JsArray items =>
      let element (x : JsValue) : Outcome string :=
        if isNullish x then Returns "" else js_toString x in
      (fix join (l : list JsValue) : Outcome string :=
         match l with
         | [] => Returns ""
         | [x] => element x
         | x :: r => s ← element x; t ← join r; Returns (s +:+ "," +:+ t)
         end) items
  | JsHeaders _ => Returns "[object Headers]"
  end.

(** [parseInt(v, 10)] *)
Definition js_parseInt10 (v : JsValue) : Outcome JsNum :=
  parseInt10 <$> js_toString v.

(** ** [src/lib/helpers.ts] *)

(** [isNaN(numValue) ? value : numValue] *)
Definition numberOrRaw (value : JsValue) (numValue : JsNum) : JsValue :=
  match numValue with
  | NaN => value
  | Int _ => JsNumber numValue
  end.

(** A block of the selector either executes [return v] ([Some v]) or falls
    out of its [if] ([None]); it may also throw. *)
Definition Block : Type := Outcome (option JsValue).

Definition fallsThrough : Block := Returns None.

Definition orNext (b next : Block) : Block :=
  r ← b;
  match r with
  | Some v => Returns (Some v)
  | None => next
  end.

(** [try { body } catch (error) { }] followed by [return fallback]:
    whatever the body throws is dropped. *)
Definition tryElse {A : Type} (body : Outcome (option A)) (fallback : A) : Outcome A :=
  match body with
  | Returns (Some a) => Returns a
  | Returns None => Returns fallback
  | Throws _ => Returns fallback
  end.

(** helpers.ts lines 31-36, and again lines 57-62: the value a cookie
    header holds for [cookieName].
<<
      const cookies = header.split(';')
      const tenantCookie = cookies.find((c) => c.trim().startsWith(`${cookieName}=`))
      if (tenantCookie) {
        const value = tenantCookie.split('=')[1]?.trim()
>>
    [None] when no segment matches (or the segment has no second part,
    where the source's [value] is [undefined]). *)
Definition cookieValue (header cookieName : string) : option string :=
  let cookies := js_split ";" header in
  let tenantCookie :=
    List.find (fun c => startsWith (trim c) (cookieName +:+ "=")) cookies in
  match tenantCookie with
  | Some tenantCookie => trim <$> nth_error (js_split "=" tenantCookie) 1
  | None => None
  end.

(** helpers.ts lines 31-41, and again lines 57-67: the statements run on
    a truthy cookie header; they end with
<<
        if (value && value !== 'all') {
          const numValue = parseInt(value, 10)
          return isNaN(numValue) ? value : numValue
        }
>>
    Only a string has a [split] method in the model. *)
Definition selectFromCookieHeader (header : JsValue) (cookieName : string) : Block :=
  match header with
  | JsString h =>
      match cookieValue h cookieName with
      | Some value =>
          if negb (String.eqb value "") && negb (String.eqb value "all") then
            let numValue := parseInt10 value in
            Returns (Some (numberOrRaw (JsString value) numValue))
          else fallsThrough
      | None => fallsThrough
      end
  | _ => Throws (TypeError "header.split is not a function")
  end.

(** Method 1 (lines 25-27): [req.context.selectedTenant], when defined. *)
Definition fromContext (req : JsValue) : Block :=
  let selectedTenant := js_get_opt (js_get_opt req "context") "selectedTenant" in
  if negb (isUndefined selectedTenant) then Returns (Some selectedTenant)
  else fallsThrough.

(** Method 2 (lines 30-42): the [cookie] property of [req.headers]. *)
Definition fromHeadersCookie (req : JsValue) (cookieName : string) : Block :=
  let cookie := js_get_opt (js_get_opt req "headers") "cookie" in
  if truthy cookie then selectFromCookieHeader cookie cookieName
  else fallsThrough.

(** Method 3 (lines 45-51): the pre-parsed [req.cookies] mapping. *)
Definition fromCookies (req : JsValue) (cookieName : string) : Block :=
  let value := js_get_opt (js_get_opt req "cookies") cookieName in
  if truthy value then
    if negb (isStringLit value "all") then
      numValue ← js_parseInt10 value;
      Returns (Some (numberOrRaw value numValue))
    else fallsThrough
  else fallsThrough.

(** [headers.get('cookie')] of a [Headers] instance: the header line, or
    [null]. *)
Definition headersGet (entries : list (string * string)) (name : string) : JsValue :=
  match assoc name entries with
  | Some line => JsString line
  | None => JsNull
  end.

(** [!!headers?.get]: on a [Headers] instance [get] is the class's
    method; on any other value it is an own property, if anything. *)
Definition hasGetAccessor (headers : JsValue) : bool :=
  match headers with
  | JsHeaders _ => true
  | _ => truthy (js_get_opt headers "get")
  end.

(** Method 4 (lines 54-69): the [get] accessor of [req.headers].  A
    truthy [get] that is not the method of a [Headers] instance is data,
    and calling it throws. *)
Definition fromHeadersGet (req : JsValue) (cookieName : string) : Block :=
  let headers := js_get_opt req "headers" in
  if hasGetAccessor headers then
    match headers with
    | JsHeaders entries =>
        let cookieHeader := headersGet entries "cookie" in
        if truthy cookieHeader then selectFromCookieHeader cookieHeader cookieName
        else fallsThrough
    | _ => Throws (TypeError "req.headers.get is not a function")
    end
  else fallsThrough.

(** The body of the [try] block, lines 24-69. *)
Definition selectedTenantBody (req : JsValue) (cookieName : string) : Block :=
  orNext (fromContext req)
    (orNext (fromHeadersCookie req cookieName)
       (orNext (fromCookies req cookieName)
          (fromHeadersGet req cookieName))).

(** helpers.ts lines 19-75. *)
Definition getSelectedTenantFromCookie (req : JsValue) (cookieName : string)
  : Outcome JsValue :=
  tryElse (selectedTenantBody req cookieName) JsNull.

(** helpers.ts lines 83-94. *)
Definition extractTenantId (tenant : JsValue) : JsValue :=
  if negb (truthy tenant) then JsNull
  else if String.eqb (js_typeof tenant) "number" then tenant
  else if String.eqb (js_typeof tenant) "string" then tenant
  else if String.eqb (js_typeof tenant) "object" then
    let id :=
      nullish_or (nullish_or (ownProperty tenant "id") (ownProperty tenant "_id"))
                 (ownProperty tenant "ID") in
    if negb (isUndefined id) && negb (isNull id) then id else JsNull
  else JsNull.

(** [tenants.map((t) => extractTenantId(t.tenant)).filter((id) => id !== null)]
    (helpers.ts lines 115-117, plugin.ts lines 52-54): reading [t.tenant]
    throws on a [null] or [undefined] entry. *)
Definition tenantIdsOfAssignments (tenants : list JsValue) : Outcome (list JsValue) :=
  ids ← mapM (fun t => extractTenantId <$> js_get t "tenant") tenants;
  Returns (List.filter (fun id => negb (isNull id)) ids).

(** The document store, as far as the helpers use it. *)
Record FindByIDArgs : Type := {
  find_collection : string;
  find_id : JsValue;
  find_depth : Z
}.

Record Payload : Type := {
  findByID : FindByIDArgs → Outcome JsValue
}.

(** helpers.ts lines 103-124. *)
Definition getUserTenantIds (userId : JsValue) (payload : Payload)
  : Outcome (list JsValue) :=
  tryElse
    (userDoc ← findByID payload
       {| find_collection := "users"; find_id := userId; find_depth := 2 |};
     if truthy userDoc && truthy (js_get_opt userDoc "tenants")
        && isArray (js_get_opt userDoc "tenants") then
       match js_get_opt userDoc "tenants" with
       | JsArray tenants => Some <$> tenantIdsOfAssignments tenants
       | _ => Returns None
       end
     else Returns None)
    [].

(** ** [src/plugin.ts] *)

(** An entry of a collection's [access] object: a static value
    ([undefined] when the key is missing) or a function of the access
    arguments, possibly asynchronous. *)
Inductive AccessRule : Type :=
  | RuleValue (v : JsValue)
  | RuleFunction (f : JsValue → Outcome JsValue).

Record Access : Type := {
  acc_create : AccessRule;
  acc_read : AccessRule;
  acc_update : AccessRule;
  acc_delete : AccessRule;
  acc_others : list (string * AccessRule)
}.

(** [{}] as an access object. *)
Definition emptyAccess : Access := {|
  acc_create := RuleValue JsUndefined;
  acc_read := RuleValue JsUndefined;
  acc_update := RuleValue JsUndefined;
  acc_delete := RuleValue JsUndefined;
  acc_others := []
|}.

(** plugin.ts lines 47-55. *)
Definition extractUserTenantIds (user : JsValue) : Outcome (list JsValue) :=
  let tenants := js_get_opt user "tenants" in
  if negb (truthy tenants) || negb (isArray tenants) then Returns []
  else match tenants with
       | JsArray tenants => tenantIdsOfAssignments tenants
       | _ => Returns []
       end.

(** The default of the [userHasAccessToAllTenants] option (line 68). *)
Definition isSuperAdmin (user : JsValue) : bool :=
  isStringLit (js_get_opt user "role") "super-admin".

Section AccessFunctions.

(** What the closures of lines 121-315 capture. *)
Variable userHasAccessToAllTenants : JsValue → bool.
Variable cookieName : string.
Variable fieldName : string.
Variable originalAccess : Access.

(** [{ [`${fieldName}.tenant`]: { [operator]: operand } }] *)
Definition tenantFilter (operator : string) (operand : JsValue) : JsValue :=
  JsObject [(fieldName +:+ ".tenant", JsObject [(operator, operand)])].

(** "Merge with original access control" (lines 155-164, 185-194 and
    their copies in [update] and [delete]). *)
Definition mergeWithOriginal (original : AccessRule) (args filter : JsValue)
  : Outcome JsValue :=
  match original with
  | RuleFunction f =>
      originalResult ← f args;
      if String.eqb (js_typeof originalResult) "object"
      then Returns (JsObject [("and", JsArray [filter; originalResult])])
      else Returns filter
  | RuleValue _ => Returns filter
  end.

(** [typeof original === 'function' ? await original(args)
     : original !== undefined ? original : fallback]
    (lines 126-129, 133-136, 168-171 and copies). *)
Definition originalOr (original : AccessRule) (args : JsValue) (fallback : bool)
  : Outcome JsValue :=
  match original with
  | RuleFunction f => f args
  | RuleValue v => Returns (if negb (isUndefined v) then v else JsBoolean fallback)
  end.

(** [create], lines 121-137. *)
Definition createAccess (args : JsValue) : Outcome JsValue :=
  req ← js_get args "req";
  user ← js_get req "user";
  if userHasAccessToAllTenants user then
    originalOr (acc_create originalAccess) args true
  else
    originalOr (acc_create originalAccess) args false.

(** The body shared, word for word, by [read] (lines 139-199), [update]
    (lines 201-257) and [delete] (lines 259-315); they differ only in the
    entry of [originalAccess] they consult. *)
Definition tenantScopedAccess (original : AccessRule) (args : JsValue)
  : Outcome JsValue :=
  req ← js_get args "req";
  user ← js_get req "user";
  if userHasAccessToAllTenants user then
    selectedTenant ← getSelectedTenantFromCookie req cookieName;
    if truthy selectedTenant then
      mergeWithOriginal original args (tenantFilter "equals" selectedTenant)
    else
      originalOr original args true
  else
    userTenantIds ← extractUserTenantIds user;
    if (0 <? List.length userTenantIds)%nat then
      mergeWithOriginal original args (tenantFilter "in" (JsArray userTenantIds))
    else
      Returns (JsBoolean false).

Definition readAccess : JsValue → Outcome JsValue :=
  tenantScopedAccess (acc_read originalAccess).

Definition updateAccess : JsValue → Outcome JsValue :=
  tenantScopedAccess (acc_update originalAccess).

Definition deleteAccess : JsValue → Outcome JsValue :=
  tenantScopedAccess (acc_delete originalAccess).

(** Lines 119-316: [{ ...originalAccess, create, read, update, delete }]. *)
Definition tenantAccess : Access := {|
  acc_create := RuleFunction createAccess;
  acc_read := RuleFunction readAccess;
  acc_update := RuleFunction updateAccess;
  acc_delete := RuleFunction deleteAccess;
  acc_others := acc_others originalAccess
|}.

End AccessFunctions.

(** The three access functions that share [tenantScopedAccess], each with
    the delegate rule it consults. *)
Definition scopedAccessFunctions (userHasAccessToAllTenants : JsValue → bool)
    (cookieName fieldName : string) (originalAccess : Access)
  : list (AccessRule * (JsValue → Outcome JsValue)) :=
  [ (acc_read originalAccess,
     readAccess userHasAccessToAllTenants cookieName fieldName originalAccess);
    (acc_update originalAccess,
     updateAccess userHasAccessToAllTenants cookieName fieldName originalAccess);
    (acc_delete originalAccess,
     deleteAccess userHasAccessToAllTenants cookieName fieldName originalAccess) ].

(** Fields of a collection: those of the host, which the plugin never
    inspects, and the two kinds the plugin builds (lines 94-112). *)
Inductive Field : Type :=
  | HostField (data : JsValue)
  | ArrayField (name label description : string)
               (condition : JsValue → bool) (fields : list Field)
  | RelationshipField (name relationTo : string) (required : bool).

Record CollectionConfig : Type := {
  col_slug : string;
  col_fields : option (list Field);
  col_access : option Access;
  col_rest : list (string * JsValue)
}.

Record Config : Type := {
  cfg_collections : option (list CollectionConfig);
  cfg_rest : list (string * JsValue)
}.

Record CollectionOptions : Type := {
  opt_fieldName : option string
}.

(** [MultiTenantPluginOptions], lines 4-40; [None] is a missing key.  The
    [collections] record is a finite map from slugs to options: the keys
    are those the options object itself has. *)
Record MultiTenantPluginOptions : Type := {
  opt_tenantsSlug : option string;
  opt_collections : option (gmap string CollectionOptions);
  opt_userHasAccessToAllTenants : option (JsValue → bool);
  opt_cookieName : option string;
  opt_authCollectionSlug : option string
}.

(** The [tenants] field, lines 94-112. *)
Definition tenantsField (fieldName tenantsSlug : string)
    (userHasAccessToAllTenants : JsValue → bool) : Field :=
  ArrayField fieldName "Tenants" "Tenants that have access to this document"
    (fun user => userHasAccessToAllTenants user)
    [RelationshipField "tenant" tenantsSlug true].

(** [collectionConfig.fieldName || 'tenants'] *)
Definition fieldNameOf (collectionConfig : CollectionOptions) : string :=
  match opt_fieldName collectionConfig with
  | Some name => if String.eqb name "" then "tenants" else name
  | None => "tenants"
  end.

(** plugin.ts lines 61-324. *)
Definition multiTenantPlugin (pluginOptions : MultiTenantPluginOptions)
    (incomingConfig : Config) : Config :=
  let tenantsSlug := default "tenants" (opt_tenantsSlug pluginOptions) in
  let collections := default ∅ (opt_collections pluginOptions) in
  let userHasAccessToAllTenants :=
    default isSuperAdmin (opt_userHasAccessToAllTenants pluginOptions) in
  let cookieName := default "payload-selected-tenant" (opt_cookieName pluginOptions) in
  {| cfg_collections :=
       match cfg_collections incomingConfig with
       | Some cs =>
           Some ((fun collection =>
             match collections !! col_slug collection with
             | None => collection
             | Some collectionConfig =>
                 let fieldName := fieldNameOf collectionConfig in
                 let originalAccess := default emptyAccess (col_access collection) in
                 {| col_slug := col_slug collection;
                    col_fields :=
                      Some (default [] (col_fields collection)
                            ++ [tenantsField fieldName tenantsSlug
                                  userHasAccessToAllTenants])%list;
                    col_access :=
                      Some (tenantAccess userHasAccessToAllTenants cookieName
                              fieldName originalAccess);
                    col_rest := col_rest collection |}
             end) <$> cs)
       | None => None
       end;
     cfg_rest := cfg_rest incomingConfig |}.

(** ** Notions of the specification *)

(** Spec 4.4: the tenant identifiers of a sequence of assignments, each
    assignment's tenant reference normalised by the extractor, entries
    that do not resolve discarded, order kept. *)
Fixpoint resolvedTenantIds (assignments : list JsValue) : list JsValue :=
  match assignments with
  | [] => []
  | assignment :: rest =>
      match extractTenantId (ownProperty assignment "tenant") with
      | JsNull => resolvedTenantIds rest
      | id => id :: resolvedTenantIds rest
      end
  end.

(** Spec 4.2: the recognised identifier (if any) of a record, by the priority
    [id], [_id], [ID]: a field holding [null] or [undefined] counts as
    missing. *)
Definition recognisedId (props : list (string * JsValue)) : option JsValue :=
  let present (key : string) :=
    match assoc key props with
    | Some v => if isNullish v then None else Some v
    | None => None
    end in
  match present "id", present "_id", present "ID" with
  | Some v, _, _ => Some v
  | None, Some v, _ => Some v
  | None, None, Some v => Some v
  | None, None, None => None
  end.

(** Spec 3: the filter "field [fieldName.tenant] [operator] [operand]". *)
Definition Filter (fieldName operator : string) (operand : JsValue) : JsValue :=
  JsObject [(fieldName +:+ ".tenant", JsObject [(operator, operand)])].

(** Spec 3: the conjunction [AND(filter, delegateResult)]. *)
Definition And (filter delegateResult : JsValue) : JsValue :=
  JsObject [("and", JsArray [filter; delegateResult])].

(** Spec 4.1, step 2b: how a tenant filter combines with the delegate
    rule.  When the delegate is a function whose result is a structured
    predicate (an object), the decision is [AND(filter, result)]; a result
    that is not structured (a boolean, say: anything whose [typeof] is
    not ["object"]) is ignored, and so is a delegate that is not a
    function; a failing delegate fails the decision.  (The host types a
    rule's result as [boolean | Where]; [null] and arrays, whose [typeof]
    is ["object"] as well, are no results of a rule.) *)
Definition CombinedWithDelegate (filter args : JsValue) (delegate : AccessRule)
    (decision : Outcome JsValue) : Prop :=
  (∀ f props, delegate = RuleFunction f → f args = Returns (JsObject props) →
      decision = Returns (And filter (JsObject props))) ∧
  (∀ f r, delegate = RuleFunction f → f args = Returns r →
      js_typeof r ≠ "object" → decision = Returns filter) ∧
  (∀ f e, delegate = RuleFunction f → f args = Throws e → decision = Throws e) ∧
  (∀ v, delegate = RuleValue v → decision = Returns filter).

(** Spec 4.1, steps 2a/2b: "delegate to the original rule if present;
    otherwise default to" a boolean. *)
Definition DelegatedOr (fallback : bool) (args : JsValue) (rule : AccessRule)
  : Outcome JsValue :=
  match rule with
  | RuleFunction f => f args
  | RuleValue JsUndefined => Returns (JsBoolean fallback)
  | RuleValue v => Returns v
  end.

(** A request without any of the four cookie-access shapes, for the
    cookie [cookieName]: no [context.selectedTenant], no [headers.cookie],
    no [cookies[cookieName]], no [headers.get]. *)
Definition lacksCookieShapes (req : JsValue) (cookieName : string) : bool :=
  isUndefined (js_get_opt (js_get_opt req "context") "selectedTenant")
  && negb (truthy (js_get_opt (js_get_opt req "headers") "cookie"))
  && negb (truthy (js_get_opt (js_get_opt req "cookies") cookieName))
  && negb (hasGetAccessor (js_get_opt req "headers")).

(** Forgetting the tenant selection a request carries: the [cookie]
    header, the pre-parsed [cookies], and [context.selectedTenant]. *)
Definition withoutKey {A : Type} (key : string) (props : list (string * A))
  : list (string * A) :=
  List.filter (fun p => negb (String.eqb (fst p) key)) props.

Definition withoutCookieHeader (headers : JsValue) : JsValue :=
  match headers with
  | JsObject props => JsObject (withoutKey "cookie" props)
  | JsHeaders entries => JsHeaders (withoutKey "cookie" entries)
  | _ => headers
  end.

Definition withoutSelectedTenant (context : JsValue) : JsValue :=
  match context with
  | JsObject props => JsObject (withoutKey "selectedTenant" props)
  | _ => context
  end.

Definition withoutSelection (req : JsValue) : JsValue :=
  match req with
  | JsObject props =>
      JsObject
        (List.map (fun p =>
           if String.eqb (fst p) "headers" then (fst p, withoutCookieHeader (snd p))
           else if String.eqb (fst p) "context" then (fst p, withoutSelectedTenant (snd p))
           else p)
           (withoutKey "cookies" props))
  | _ => req
  end.

(** Two requests identical except for their cookie header, pre-parsed
    cookies and context [selectedTenant] field. *)
Definition sameExceptSelection (req1 req2 : JsValue) : Prop :=
  withoutSelection req1 = withoutSelection req2.

(** A cookie name or value as a cookie header can carry it: [occurs c s]
    tells whether the character [c] occurs in [s], [startsBlank s] whether
    [s] begins with white space. *)
Fixpoint occurs (c : ascii) (s : string) : bool :=
  match s with
  | String c' r => Ascii.eqb c' c || occurs c r
  | EmptyString => false
  end.

Definition startsBlank (s : string) : bool :=
  match s with
  | String c _ => isWhiteSpace c
  | EmptyString => false
  end.

(** All characters of [s] satisfy [P]. *)
Fixpoint allChars (P : ascii → bool) (s : string) : bool :=
  match s with
  | String c r => P c && allChars P r
  | EmptyString => true
  end.

(** ** [src/lib/helpers.ts], the remaining helpers *)

(** The argument of the filter-options function, [{ user, req }]: the
    request may be missing ([None]: [undefined] or [null]), and so may
    the store on it. *)
Record FilterRequest : Type := {
  req_payload : option Payload
}.

Record FilterOptionsArgs : Type := {
  fo_user : JsValue;
  fo_req : option FilterRequest
}.

(** A missing [payload] handed to [getUserTenantIds]: the call
    [payload.findByID(...)] throws a [TypeError], inside that function's
    [try]. *)
Definition missingPayload : Payload :=
  {| findByID := fun _ =>
       Throws (TypeError "Cannot read properties of undefined or null") |}.

(** helpers.ts lines 132-154: the function [getTenantFilterOptions()]
    returns. *)
Definition getTenantFilterOptions (args : FilterOptionsArgs) : Outcome JsValue :=
  let user := fo_user args in
  if isStringLit (js_get_opt user "role") "super-admin" then Returns (JsBoolean true)
  else
    filter ← (if truthy (js_get_opt user "id") then
                match fo_req args with
                | Some req =>
                    tenantIds ← getUserTenantIds (js_get_opt user "id")
                                  (default missingPayload (req_payload req));
                    if (0 <? List.length tenantIds)%nat
                    then Returns (Some (JsObject [("id", JsObject [("in", JsArray tenantIds)])]))
                    else Returns None
                | None => Throws (TypeError "Cannot read properties of undefined or null")
                end
              else Returns None);
    Returns (default (JsBoolean false) filter).

(** A tenant identifier as [getUserIdsForTenants] is typed to receive
    it: [number | string]. *)
Inductive TenantId : Type :=
  | IdNumber (n : JsNum)
  | IdString (s : string).

(** [t === id] up to [NaN], the comparison of [Array.prototype.includes]
    (SameValueZero), between a value and a [number | string]. *)
Definition sameValueZero (id : JsValue) (t : TenantId) : bool :=
  match id, t with
  | JsNumber NaN, IdNumber NaN => true
  | JsNumber (Int a), IdNumber (Int b) => a =? b
  | JsString a, IdString b => String.eqb a b
  | _, _ => false
  end.

(** [tenantIds.includes(id)] *)
Definition includes (tenantIds : list TenantId) (id : JsValue) : bool :=
  existsb (sameValueZero id) tenantIds.

(** The query [getUserIdsForTenants] sends, and the store as it uses it. *)
Record FindArgs : Type := {
  query_collection : string;
  query_depth : Z;
  query_limit : Z
}.

Record PayloadFind : Type := {
  find : FindArgs → Outcome JsValue
}.

(** helpers.ts lines 181-190, the body of the loop for one [user]:
    [Some id] when [user.id] is pushed. *)
Definition matchingUserId (tenantIds : list TenantId) (user : JsValue)
  : Outcome (option JsValue) :=
  tenants ← js_get user "tenants";
  if truthy tenants && isArray tenants then
    match tenants with
    | JsArray tenants =>
        userTenantIds ← tenantIdsOfAssignments tenants;
        let hasMatchingTenant := existsb (includes tenantIds) userTenantIds in
        if hasMatchingTenant then Some <$> js_get user "id" else Returns None
    | _ => Returns None
    end
  else Returns None.

(** helpers.ts lines 180-191: [for (const user of users.docs) ...]. *)
Fixpoint collectUserIds (tenantIds : list TenantId) (docs : list JsValue)
  : Outcome (list JsValue) :=
  match docs with
  | [] => Returns []
  | user :: rest =>
      pushed ← matchingUserId tenantIds user;
      userIds ← collectUserIds tenantIds rest;
      Returns (match pushed with
               | Some id => id :: userIds
               | None => userIds
               end)
  end.

(** helpers.ts lines 164-198. *)
Definition getUserIdsForTenants (tenantIds : list TenantId) (payload : PayloadFind)
  : Outcome (list JsValue) :=
  tryElse
    (if (List.length tenantIds =? 0)%nat then Returns (Some [])
     else
       users ← find payload
         {| query_collection := "users"; query_depth := 2; query_limit := 1000 |};
       docs ← js_get users "docs";
       userIds ← (if truthy docs && isArray docs then
                    match docs with
                    | JsArray docs => collectUserIds tenantIds docs
                    | _ => Returns []
                    end
                  else Returns []);
       Returns (Some userIds))
    [].

(** ** Further notions *)

(** A user document belongs to one of [tenantIds]: its [tenants] is an
    array, and one of the identifiers its rows resolve to is among
    [tenantIds]. *)
Definition belongsToSome (tenantIds : list TenantId) (user : JsValue) : bool :=
  match js_get_opt user "tenants" with
  | JsArray rows => existsb (includes tenantIds) (resolvedTenantIds rows)
  | _ => false
  end.

(** A user document as the store materialises it: not [null] or
    [undefined], its assignment rows neither. *)
Definition wellFormedUser (user : JsValue) : Prop :=
  isNullish user = false ∧
  ∀ rows, js_get_opt user "tenants" = JsArray rows →
          Forall (fun t => isNullish t = false) rows.

(** A value that is a [number | string], as a [TenantId]. *)
Definition asTenantId (v : JsValue) : option TenantId :=
  match v with
  | JsNumber n => Some (IdNumber n)
  | JsString s => Some (IdString s)
  | _ => None
  end.

(** An access decision that keeps to the tenants of a filter: the filter
    itself, or its conjunction with a delegate's result. *)
Definition KeepsTo (filter : JsValue) (decision : JsValue) : Prop :=
  decision = filter ∨ ∃ delegateResult, decision = And filter delegateResult.






(** ** Sample data *)

(** The specification's scenarios: a member of tenants 7 and 9, a user
    without memberships, a super-admin; requests carrying them. *)
Definition tenantUser : JsValue :=
  JsObject [("role", JsString "tenant-user");
            ("tenants", JsArray [JsObject [("tenant", JsNumber (Int 7))];
                                 JsObject [("tenant", JsNumber (Int 9))]])].

Definition newcomer : JsValue := JsObject [("role", JsString "tenant-user")].

Definition superAdmin : JsValue := JsObject [("role", JsString "super-admin")].

Definition requestOf (user : JsValue) : JsValue := JsObject [("user", user)].

Definition requestWithCookie (user : JsValue) (header : string) : JsValue :=
  JsObject [("user", user); ("headers", JsObject [("cookie", JsString header)])].

Definition argsOf (req : JsValue) : JsValue := JsObject [("req", req)].

Definition storedUser : JsValue :=
  JsObject
    [("id", JsNumber (Int 1));
     ("tenants", JsArray
        [JsObject [("tenant", JsNumber (Int 7))];
         JsObject [("tenant", JsObject [("name", JsString "orphan")])];
         JsObject [("tenant", JsObject [("id", JsString "t9")])]])].

Definition storeHolding (doc : JsValue) : Payload :=
  {| findByID := fun _ => Returns doc |}.

Definition brokenStore : Payload :=
  {| findByID := fun _ => Throws (Thrown (JsString "connection lost")) |}.

(** Host rules: [() => true] on every operation; and a [create] rule
    that looks at the request's cookies,
    [({ req }) => Boolean(req.cookies?.['payload-selected-tenant'])]. *)
Definition allowAll : AccessRule := RuleFunction (fun _ => Returns (JsBoolean true)).

Definition openAccess : Access := {|
  acc_create := allowAll;
  acc_read := allowAll;
  acc_update := allowAll;
  acc_delete := allowAll;
  acc_others := []
|}.

(** A host [read] rule with a structured result,
    [() => ({ status: { equals: 'published' } })]. *)
Definition published : JsValue :=
  JsObject [("status", JsObject [("equals", JsString "published")])].

Definition publishedOnly : Access := {|
  acc_create := RuleValue JsUndefined;
  acc_read := RuleFunction (fun _ => Returns published);
  acc_update := RuleValue JsUndefined;
  acc_delete := RuleValue JsUndefined;
  acc_others := []
|}.

Definition cookieGatedAccess : Access := {|
  acc_create := RuleFunction (fun args =>
    req ← js_get args "req";
    Returns (JsBoolean
      (truthy (js_get_opt (js_get_opt req "cookies") "payload-selected-tenant"))));
  acc_read := RuleValue JsUndefined;
  acc_update := RuleValue JsUndefined;
  acc_delete := RuleValue JsUndefined;
  acc_others := []
|}.

Definition requestWithCookies (user : JsValue) (value : string) : JsValue :=
  JsObject [("user", user);
            ("cookies", JsObject [("payload-selected-tenant", JsString value)])].



(** A host configuration with two collections, of which the plugin is
    told to scope [pages] only. *)
Definition pagesCollection : CollectionConfig := {|
  col_slug := "pages";
  col_fields := Some [HostField (JsObject [("name", JsString "title")])];
  col_access := None;
  col_rest := []
|}.

Definition mediaCollection : CollectionConfig := {|
  col_slug := "media";
  col_fields := Some [HostField (JsObject [("name", JsString "alt")])];
  col_access := Some openAccess;
  col_rest := [("upload", JsBoolean true)]
|}.

Definition hostConfig : Config := {|
  cfg_collections := Some [pagesCollection; mediaCollection];
  cfg_rest := [("serverURL", JsString "http://localhost:3000")]
|}.

Definition scopePages : MultiTenantPluginOptions := {|
  opt_tenantsSlug := None;
  opt_collections := Some {[ "pages" := {| opt_fieldName := None |} ]};
  opt_userHasAccessToAllTenants := None;
  opt_cookieName := None;
  opt_authCollectionSlug := None
|}.


(** The arguments of a filter-options call: a user, and a request with
    or without a store. *)
Definition filterArgs (user : JsValue) (store : option Payload) : FilterOptionsArgs :=
  {| fo_user := user; fo_req := Some {| req_payload := store |} |}.

(** A second stored user, of tenant 8; a store whose [find] returns the
    given user documents; a member one of whose assignment rows is
    [null]. *)
Definition secondUser : JsValue :=
  JsObject [("id", JsNumber (Int 2));
            ("tenants", JsArray [JsObject [("tenant", JsNumber (Int 8))]])].

Definition usersStore (docs : list JsValue) : PayloadFind :=
  {| find := fun _ => Returns (JsObject [("docs", JsArray docs)]) |}.

Definition userWithNullRow : JsValue :=
  JsObject [("role", JsString "tenant-user");
            ("tenants", JsArray [JsObject [("tenant", JsNumber (Int 7))]; JsNull])].

(** * Properties *)

(** ** Basic facts about the embedding *)

Lemma tryElse_returns {A : Type} (body : Outcome (option A)) (fallback : A) :
  ∃ a, tryElse body fallback = Returns a.
Proof. destruct body as [[a|]|e]; simpl; eauto. Qed.

Lemma tryElse_throws {A : Type} (body : Outcome (option A)) (fallback : A) e :
  body = Throws e → tryElse body fallback = Returns fallback.
Proof. intros ->. reflexivity. Qed.

Lemma orNext_falls (next : Block) : orNext fallsThrough next = next.
Proof. reflexivity. Qed.


Lemma isNullish_get_opt v key : isNullish v = true → js_get_opt v key = JsUndefined.
Proof. unfold js_get_opt. intros ->. reflexivity. Qed.

(** ** Tenant-id extraction (helpers.ts, [extractTenantId]) *)

(** C5, the counterexample: 0 is a raw number, and the guard
    [if (!tenant) return null] of line 84 turns it into the absent
    sentinel. *)
Lemma extractTenantId_zero :
  extractTenantId (JsNumber (Int 0)) = JsNull
  ∧ extractTenantId (JsNumber (Int 0)) ≠ JsNumber (Int 0).
Proof. split; [reflexivity | discriminate]. Qed.

Lemma extractTenantId_object props :
  extractTenantId (JsObject props) =
    let id := nullish_or (nullish_or (default JsUndefined (assoc "id" props))
                                     (default JsUndefined (assoc "_id" props)))
                         (default JsUndefined (assoc "ID" props)) in
    if isNullish id then JsNull else id.
Proof.
  unfold extractTenantId. simpl.
  set (id := nullish_or _ _). unfold isNullish.
  destruct (isUndefined id), (isNull id); reflexivity.
Qed.

Lemma extractTenantId_recognised props :
  extractTenantId (JsObject props) = default JsNull (recognisedId props).
Proof.
  rewrite extractTenantId_object. unfold recognisedId, nullish_or. simpl.
  destruct (assoc "id" props) as [a|], (assoc "_id" props) as [b|],
    (assoc "ID" props) as [c|]; simpl;
    try destruct (isNullish a) eqn:Ea; try destruct (isNullish b) eqn:Eb;
    try destruct (isNullish c) eqn:Ec; simpl;
    rewrite ?Ea, ?Eb, ?Ec; simpl; rewrite ?Ea, ?Eb, ?Ec; reflexivity.
Qed.

(** C5 (as amended).  Extraction leaves every truthy canonical identifier
    unchanged: a raw number other than 0 (and NaN), a raw string other
    than the empty one; the falsy ones yield the absent sentinel.  From a
    record it returns the first of the fields [id], [_id], [ID] that is
    neither [null] nor [undefined], so [{id: 5}], [{_id: 5}] and [{ID: 5}]
    give 5; [null], [undefined] and a record without a recognised field
    give the absent sentinel. *)
Theorem extractTenantId_canonical :
  (∀ z, z ≠ 0 → extractTenantId (JsNumber (Int z)) = JsNumber (Int z)) ∧
  (∀ s, s ≠ "" → extractTenantId (JsString s) = JsString s) ∧
  (extractTenantId (JsNumber (Int 0)) = JsNull ∧
   extractTenantId (JsNumber NaN) = JsNull ∧
   extractTenantId (JsString "") = JsNull) ∧
  (extractTenantId (JsObject [("id", JsNumber (Int 5))]) = JsNumber (Int 5) ∧
   extractTenantId (JsObject [("_id", JsNumber (Int 5))]) = JsNumber (Int 5) ∧
   extractTenantId (JsObject [("ID", JsNumber (Int 5))]) = JsNumber (Int 5)) ∧
  (∀ props, extractTenantId (JsObject props) = default JsNull (recognisedId props)) ∧
  (extractTenantId JsNull = JsNull ∧
   extractTenantId JsUndefined = JsNull ∧
   ∀ props, recognisedId props = None → extractTenantId (JsObject props) = JsNull).
Proof.
  repeat split; try reflexivity.
  - intros z Hz. unfold extractTenantId. simpl.
    destruct (Z.eqb_spec z 0); [contradiction|reflexivity].
  - intros s Hs. unfold extractTenantId. simpl.
    destruct (String.eqb_spec s ""); [contradiction|reflexivity].
  - apply extractTenantId_recognised.
  - intros props H. rewrite extractTenantId_recognised, H. reflexivity.
Qed.

(** On sample identifiers and records. *)
Lemma extractTenantId_canonical_witness :
  extractTenantId (JsNumber (Int 7)) = JsNumber (Int 7) ∧
  extractTenantId (JsString "tenant-abc") = JsString "tenant-abc" ∧
  extractTenantId (JsObject [("name", JsString "acme")]) = JsNull ∧
  extractTenantId (JsObject [("id", JsNull); ("_id", JsNumber (Int 2)); ("ID", JsNumber (Int 3))])
    = JsNumber (Int 2).
Proof.
  destruct extractTenantId_canonical as (Hnum & Hstr & _ & _ & Hrec & _ & _ & Hnone).
  split; [apply Hnum; lia|].
  split; [apply Hstr; discriminate|].
  split; [apply Hnone; reflexivity|].
  rewrite Hrec. reflexivity.
Defined.

(** ** The cookie-derived tenant selector (helpers.ts,
       [getSelectedTenantFromCookie]) *)





Lemma lacksCookieShapes_body req cookieName :
  lacksCookieShapes req cookieName = true →
  selectedTenantBody req cookieName = fallsThrough.
Proof.
  unfold lacksCookieShapes. intros H.
  apply andb_true_iff in H as [H Hget]. apply andb_true_iff in H as [H Hcookies].
  apply andb_true_iff in H as [Hctx Hcookie].
  apply negb_true_iff in Hget, Hcookies, Hcookie.
  unfold selectedTenantBody, fromContext, fromHeadersCookie, fromCookies, fromHeadersGet.
  rewrite Hctx, Hcookie, Hcookies, Hget. reflexivity.
Qed.









(** C6, at the failing input: a tenant identifier that begins with
    digits is cut down to those digits, although it does not read back as
    the decimal notation of the number returned. *)
Theorem selector_truncates_digit_led_identifier :
  getSelectedTenantFromCookie
    (JsObject [("headers",
       JsObject [("cookie", JsString "payload-selected-tenant=507f1f77bcf86cd799439011")])])
    "payload-selected-tenant"
  = Returns (JsNumber (Int 507))
  ∧ parseInt10 "507f1f77bcf86cd799439011" ≠ NaN
  ∧ Z_to_string 507 ≠ "507f1f77bcf86cd799439011".
Proof. repeat split; discriminate. Qed.

(** C8.  The selector completes normally on every request value: what
    its body throws is dropped and the absent sentinel returned, and a
    request without any of the four cookie-access shapes yields the
    absent sentinel. *)
Theorem selector_never_raises req cookieName :
  (∃ v, getSelectedTenantFromCookie req cookieName = Returns v) ∧
  (∀ e, selectedTenantBody req cookieName = Throws e →
        getSelectedTenantFromCookie req cookieName = Returns JsNull) ∧
  (lacksCookieShapes req cookieName = true →
        getSelectedTenantFromCookie req cookieName = Returns JsNull).
Proof.
  split; [apply tryElse_returns|]. split.
  - intros e He. apply (tryElse_throws _ _ e He).
  - intros H. unfold getSelectedTenantFromCookie.
    rewrite (lacksCookieShapes_body _ _ H). reflexivity.
Qed.


(** On a request whose cookie header is a number (the body throws), and
    on one without any cookie-access shape. *)
Lemma selector_never_raises_witness :
  getSelectedTenantFromCookie
    (JsObject [("headers", JsObject [("cookie", JsNumber (Int 5))])])
    "payload-selected-tenant" = Returns JsNull
  ∧ getSelectedTenantFromCookie (JsObject [("user", JsNull)]) "payload-selected-tenant"
    = Returns JsNull.
Proof.
  split.
  - eapply (proj1 (proj2 (selector_never_raises _ _))). reflexivity.
  - apply (proj2 (proj2 (selector_never_raises _ _))). reflexivity.
Defined.

(** ** Cookie headers of one cookie *)

Lemma occurs_app c a b : occurs c (a +:+ b) = occurs c a || occurs c b.
Proof.
  induction a as [|c' a IH]; [reflexivity|].
  simpl. rewrite IH, orb_assoc. reflexivity.
Qed.

Lemma js_split_absent sep s : occurs sep s = false → js_split sep s = [s].
Proof.
  induction s as [|c s IH]; [reflexivity|].
  simpl. intros H. apply orb_false_iff in H as [Hc Hs].
  rewrite Hc, (IH Hs). reflexivity.
Qed.

Lemma js_split_at sep a b :
  occurs sep a = false → js_split sep (a +:+ String sep b) = a :: js_split sep b.
Proof.
  induction a as [|c a IH]; simpl.
  - intros _. rewrite Ascii.eqb_refl. reflexivity.
  - intros H. apply orb_false_iff in H as [Hc Ha].
    rewrite Hc, (IH Ha). reflexivity.
Qed.

Lemma trimStart_unblank s : startsBlank s = false → trimStart s = s.
Proof. destruct s as [|c s]; [reflexivity|]. simpl. intros ->. reflexivity. Qed.

Lemma trimEnd_app a b : trimEnd b ≠ "" → trimEnd (a +:+ b) = a +:+ trimEnd b.
Proof.
  intros Hb. induction a as [|c a IH]; [reflexivity|].
  change (trimEnd (String c a +:+ b) = String c (a +:+ trimEnd b)).
  simpl. rewrite IH.
  destruct (a +:+ trimEnd b) eqn:E; [|reflexivity].
  destruct a; simpl in E; [contradiction|discriminate].
Qed.

Lemma trimEnd_unblank_head c s :
  isWhiteSpace c = false → trimEnd (String c s) = String c (trimEnd s).
Proof. intros H. simpl. rewrite H. destruct (trimEnd s); reflexivity. Qed.

Lemma prefix_app a b : String.prefix a (a +:+ b) = true.
Proof.
  induction a as [|c a IH]; [destruct b; reflexivity|].
  simpl. destruct (ascii_dec c c); [exact IH|contradiction].
Qed.

Lemma append_assoc (a b c : string) : (a +:+ b) +:+ c = a +:+ (b +:+ c).
Proof.
  induction a as [|x a IH]; [reflexivity|].
  change (String x ((a +:+ b) +:+ c) = String x (a +:+ (b +:+ c))).
  rewrite IH. reflexivity.
Qed.

(** A header that consists of the one cookie [cookieName=value] holds
    [value], trimmed, for [cookieName]. *)
Lemma cookieValue_single cookieName value :
  occurs ";" cookieName = false → occurs "=" cookieName = false →
  startsBlank cookieName = false →
  occurs ";" value = false → occurs "=" value = false →
  cookieValue (cookieName +:+ "=" +:+ value) cookieName = Some (trim value).
Proof.
  intros Hn1 Hn2 Hn3 Hv1 Hv2. unfold cookieValue.
  change (cookieName +:+ "=" +:+ value) with (cookieName +:+ String "=" value).
  assert (Hheader : occurs ";" (cookieName +:+ String "=" value) = false).
  { rewrite occurs_app, Hn1. simpl. exact Hv1. }
  rewrite (js_split_absent _ _ Hheader).
  assert (Hstart :
    startsWith (trim (cookieName +:+ String "=" value)) (cookieName +:+ "=") = true).
  { unfold startsWith, trim.
    assert (Hkept : trimEnd (String "=" value) = String "=" (trimEnd value))
      by (apply trimEnd_unblank_head; reflexivity).
    rewrite trimStart_unblank.
    - rewrite trimEnd_app by (rewrite Hkept; discriminate).
      rewrite Hkept.
      change (String "=" (trimEnd value)) with ("=" +:+ trimEnd value).
      rewrite <- append_assoc. apply prefix_app.
    - destruct cookieName; [reflexivity | exact Hn3]. }
  cbn [List.find]. rewrite Hstart.
  rewrite (js_split_at _ _ _ Hn2), (js_split_absent _ _ Hv2). reflexivity.
Qed.

(** ** [parseInt] on the strings the selector meets *)

Lemma isDigit_plain c :
  isDigit c = true → isWhiteSpace c = false ∧ c ≠ "-"%char ∧ c ≠ "+"%char.
Proof.
  destruct c as [[] [] [] [] [] [] [] []]; intros H; try discriminate H;
    repeat split; discriminate.
Qed.

(** A string that starts with a digit parses to the value of its leading
    digits, whatever follows them. *)
Lemma parseInt10_leading_digits c r :
  isDigit c = true →
  parseInt10 (String c r) = Int (digitsValue 0 (takeDigits (String c r))).
Proof.
  intros Hc. destruct (isDigit_plain c Hc) as (Hw & Hminus & Hplus).
  unfold parseInt10. cbn [trimStart]. rewrite Hw.
  assert (Hs : (match String c r with
                | String "-" r0 => (true, r0)
                | String "+" r0 => (false, r0)
                | _ => (false, String c r)
                end) = (false, String c r)).
  { destruct c as [[] [] [] [] [] [] [] []]; try reflexivity; contradiction. }
  rewrite Hs. cbn [takeDigits]. rewrite Hc. reflexivity.
Qed.

(** A string that starts with neither white space, a sign nor a digit
    does not parse. *)
Lemma parseInt10_not_a_number c r :
  isWhiteSpace c = false → isDigit c = false → c ≠ "-"%char → c ≠ "+"%char →
  parseInt10 (String c r) = NaN.
Proof.
  intros Hw Hd Hminus Hplus. unfold parseInt10. cbn [trimStart]. rewrite Hw.
  assert (Hs : (match String c r with
                | String "-" r0 => (true, r0)
                | String "+" r0 => (false, r0)
                | _ => (false, String c r)
                end) = (false, String c r)).
  { destruct c as [[] [] [] [] [] [] [] []]; try reflexivity; contradiction. }
  rewrite Hs. cbn [takeDigits]. rewrite Hd. reflexivity.
Qed.

Lemma takeDigits_uint d :
  takeDigits (NilEmpty.string_of_uint d) = NilEmpty.string_of_uint d.
Proof. induction d; simpl; rewrite ?IHd; reflexivity. Qed.

Lemma digitsValue_uint_acc d : ∀ acc : positive,
  digitsValue (Z.pos acc) (NilEmpty.string_of_uint d) = Z.pos (Pos.of_uint_acc d acc).
Proof.
  induction d; intros acc; cbn [NilEmpty.string_of_uint digitsValue Pos.of_uint_acc];
    [reflexivity|..];
    match goal with
    | |- digitsValue (10 * Z.pos acc + digitValue ?c) _
         = Z.pos (Pos.of_uint_acc _ ?a) =>
        let dv := eval vm_compute in (digitValue c) in
        change (digitValue c) with dv;
        replace (10 * Z.pos acc + dv) with (Z.pos a) by lia
    end; apply IHd.
Qed.

Lemma digitsValue_uint d :
  digitsValue 0 (NilEmpty.string_of_uint d) = Z.of_N (Pos.of_uint d).
Proof.
  induction d; cbn [NilEmpty.string_of_uint digitsValue Pos.of_uint];
    [reflexivity | exact IHd | ..];
    match goal with
    | |- digitsValue ?v _ = Z.of_N (N.pos (Pos.of_uint_acc _ ?a)) =>
        change v with (Z.pos a)
    end; apply digitsValue_uint_acc.
Qed.

Lemma string_of_uint_head d :
  match NilEmpty.string_of_uint d with
  | String c _ => isDigit c = true
  | EmptyString => d = Decimal.Nil
  end.
Proof. destruct d; reflexivity. Qed.

Lemma digitsValue_pos p :
  digitsValue 0 (NilEmpty.string_of_uint (Pos.to_uint p)) = Z.pos p.
Proof. rewrite digitsValue_uint, DecimalPos.Unsigned.of_to. reflexivity. Qed.

Lemma string_of_pos p :
  ∃ c r, NilEmpty.string_of_uint (Pos.to_uint p) = String c r ∧ isDigit c = true.
Proof.
  pose proof (string_of_uint_head (Pos.to_uint p)) as H.
  pose proof (DecimalPos.Unsigned.of_to p) as Hp.
  destruct (NilEmpty.string_of_uint (Pos.to_uint p)) as [|c r]; [|eauto].
  rewrite H in Hp. discriminate Hp.
Qed.

(** [parseInt] reads back the decimal notation of every integer. *)
Lemma parseInt10_Z_to_string z : parseInt10 (Z_to_string z) = Int z.
Proof.
  destruct z as [|p|p]; [reflexivity|..]; unfold Z_to_string;
    cbn [Z.to_int NilEmpty.string_of_int];
    destruct (string_of_pos p) as (c & r & Hs & Hc).
  - rewrite Hs, (parseInt10_leading_digits _ _ Hc), <- Hs, takeDigits_uint,
      digitsValue_pos. reflexivity.
  - unfold parseInt10. cbn [trimStart]. change (isWhiteSpace "-") with false.
    cbv iota beta. rewrite takeDigits_uint, Hs, <- Hs, digitsValue_pos. reflexivity.
Qed.

(** ** The selector on a header of one cookie *)

Lemma allChars_impl (P Q : ascii → bool) s :
  (∀ c, P c = true → Q c = true) → allChars P s = true → allChars Q s = true.
Proof.
  intros HPQ. induction s as [|c s IH]; [reflexivity|].
  simpl. intros H. apply andb_true_iff in H as [Hc Hs].
  rewrite (HPQ _ Hc), (IH Hs). reflexivity.
Qed.

Lemma allChars_occurs c s :
  allChars (fun x => negb (Ascii.eqb x c)) s = true → occurs c s = false.
Proof.
  induction s as [|x s IH]; [reflexivity|].
  simpl. intros H. apply andb_true_iff in H as [Hx Hs].
  apply negb_true_iff in Hx. rewrite Hx, (IH Hs). reflexivity.
Qed.

Lemma trimEnd_unblank s :
  allChars (fun x => negb (isWhiteSpace x)) s = true → trimEnd s = s.
Proof.
  induction s as [|c s IH]; [reflexivity|].
  simpl. intros H. apply andb_true_iff in H as [Hc Hs].
  apply negb_true_iff in Hc. rewrite (IH Hs), Hc. destruct s; reflexivity.
Qed.

Lemma trim_unblank s :
  allChars (fun x => negb (isWhiteSpace x)) s = true → trim s = s.
Proof.
  intros H. unfold trim. rewrite trimStart_unblank.
  - apply trimEnd_unblank, H.
  - destruct s as [|c s]; [reflexivity|]. simpl in *.
    apply andb_true_iff in H as [Hc _]. apply negb_true_iff in Hc. exact Hc.
Qed.

Lemma append_nonempty a b : a +:+ "=" +:+ b ≠ "".
Proof. destruct a; discriminate. Qed.

(** The selector on a request whose only cookie source is a raw [Cookie]
    header made of the single cookie [cookieName=value]: the trimmed
    value is skipped when empty or ["all"], and otherwise goes through
    [parseInt]. *)
Lemma selector_single_cookie user cookieName value :
  occurs ";" cookieName = false → occurs "=" cookieName = false →
  startsBlank cookieName = false →
  occurs ";" value = false → occurs "=" value = false →
  getSelectedTenantFromCookie
    (requestWithCookie user (cookieName +:+ "=" +:+ value)) cookieName
  = Returns (if String.eqb (trim value) "" || String.eqb (trim value) "all"
             then JsNull
             else numberOrRaw (JsString (trim value)) (parseInt10 (trim value))).
Proof.
  intros Hn1 Hn2 Hn3 Hv1 Hv2.
  unfold getSelectedTenantFromCookie, selectedTenantBody, requestWithCookie.
  change (fromContext _) with fallsThrough. rewrite orNext_falls.
  unfold fromHeadersCookie.
  change (js_get_opt (js_get_opt (JsObject _) "headers") "cookie")
    with (JsString (cookieName +:+ "=" +:+ value)).
  cbn [truthy].
  destruct (String.eqb_spec (cookieName +:+ "=" +:+ value) "") as [E|_];
    [destruct (append_nonempty _ _ E)|].
  cbn [negb selectFromCookieHeader].
  rewrite (cookieValue_single _ _ Hn1 Hn2 Hn3 Hv1 Hv2).
  destruct (String.eqb (trim value) ""), (String.eqb (trim value) "all");
    reflexivity.
Qed.

Lemma Z_to_string_chars z :
  allChars (fun c => isDigit c || Ascii.eqb c "-") (Z_to_string z) = true.
Proof.
  assert (Hu : ∀ d, allChars (fun c => isDigit c || Ascii.eqb c "-")
                      (NilEmpty.string_of_uint d) = true).
  { induction d; simpl; rewrite ?IHd; reflexivity. }
  destruct z; unfold Z_to_string; cbn [Z.to_int NilEmpty.string_of_int];
    [reflexivity | apply Hu | simpl; apply Hu].
Qed.

Lemma digit_or_minus c :
  isDigit c || Ascii.eqb c "-" = true →
  negb (Ascii.eqb c ";") = true ∧ negb (Ascii.eqb c "=") = true
  ∧ negb (isWhiteSpace c) = true.
Proof.
  destruct c as [[] [] [] [] [] [] [] []]; intros H; try discriminate H;
    repeat split.
Qed.

(** A cookie that holds the decimal notation of an integer other than 0
    selects that integer, as a number. *)
Lemma selector_reads_integers user cookieName z :
  occurs ";" cookieName = false → occurs "=" cookieName = false →
  startsBlank cookieName = false →
  z ≠ 0 →
  getSelectedTenantFromCookie
    (requestWithCookie user (cookieName +:+ "=" +:+ Z_to_string z)) cookieName
  = Returns (JsNumber (Int z)).
Proof.
  intros Hn1 Hn2 Hn3 Hz.
  pose proof (Z_to_string_chars z) as Hchars.
  rewrite (selector_single_cookie user cookieName (Z_to_string z) Hn1 Hn2 Hn3).
  - rewrite trim_unblank
      by (revert Hchars; apply allChars_impl; intros c Hc; apply (digit_or_minus c Hc)).
    rewrite parseInt10_Z_to_string.
    destruct z as [|p|p]; [contradiction|..]; unfold Z_to_string;
      cbn [Z.to_int NilEmpty.string_of_int].
    + destruct (string_of_pos p) as (c & r & -> & Hc).
      destruct c as [[] [] [] [] [] [] [] []]; try discriminate Hc; reflexivity.
    + destruct (string_of_pos p) as (c & r & -> & Hc).
      destruct c as [[] [] [] [] [] [] [] []]; try discriminate Hc; reflexivity.
  - apply allChars_occurs. revert Hchars. apply allChars_impl.
    intros c Hc. apply (digit_or_minus c Hc).
  - apply allChars_occurs. revert Hchars. apply allChars_impl.
    intros c Hc. apply (digit_or_minus c Hc).
Qed.

(** A cookie whose value starts with neither a digit nor a sign, holds
    no white space, and is not ["all"], selects that value, as a string. *)
Lemma selector_keeps_plain_strings user cookieName c r :
  occurs ";" cookieName = false → occurs "=" cookieName = false →
  startsBlank cookieName = false →
  occurs ";" (String c r) = false → occurs "=" (String c r) = false →
  allChars (fun x => negb (isWhiteSpace x)) (String c r) = true →
  isDigit c = false → c ≠ "-"%char → c ≠ "+"%char →
  String c r ≠ "all" →
  getSelectedTenantFromCookie
    (requestWithCookie user (cookieName +:+ "=" +:+ String c r)) cookieName
  = Returns (JsString (String c r)).
Proof.
  intros Hn1 Hn2 Hn3 Hv1 Hv2 Hblank Hd Hminus Hplus Hall.
  rewrite (selector_single_cookie user cookieName _ Hn1 Hn2 Hn3 Hv1 Hv2).
  rewrite (trim_unblank _ Hblank).
  destruct (String.eqb_spec (String c r) "all") as [E|_]; [contradiction|].
  rewrite parseInt10_not_a_number; [reflexivity| |assumption..].
  simpl in Hblank. apply andb_true_iff in Hblank as [Hc _].
  apply negb_true_iff in Hc. exact Hc.
Qed.

(** The specification's two examples: ["42"] yields the number 42 and
    ["tenant-abc"] the string ["tenant-abc"]. *)
Example selector_examples :
  getSelectedTenantFromCookie
    (requestWithCookie superAdmin "payload-selected-tenant=42")
    "payload-selected-tenant" = Returns (JsNumber (Int 42))
  ∧ getSelectedTenantFromCookie
      (requestWithCookie superAdmin "payload-selected-tenant=tenant-abc")
      "payload-selected-tenant" = Returns (JsString "tenant-abc")
  ∧ getSelectedTenantFromCookie
      (JsObject [("cookies", JsObject [("payload-selected-tenant", JsString "42")])])
      "payload-selected-tenant" = Returns (JsNumber (Int 42))
  ∧ getSelectedTenantFromCookie
      (JsObject [("headers", JsHeaders [("cookie", "a=b; payload-selected-tenant=tenant-abc")])])
      "payload-selected-tenant" = Returns (JsString "tenant-abc").
Proof. repeat split. Qed.

(** ** The membership lookup (helpers.ts, [getUserTenantIds]) *)

Lemma mapM_assignments (assignments : list JsValue) :
  Forall (fun t => isNullish t = false) assignments →
  mapM (fun t => extractTenantId <$> js_get t "tenant") assignments
  = Returns (List.map (fun t => extractTenantId (ownProperty t "tenant")) assignments).
Proof.
  induction 1 as [|t ts Ht _ IH]; [reflexivity|].
  cbn [mapM]. rewrite IH. unfold js_get. rewrite Ht. reflexivity.
Qed.

Lemma filter_resolved (assignments : list JsValue) :
  List.filter (fun id => negb (isNull id))
    (List.map (fun t => extractTenantId (ownProperty t "tenant")) assignments)
  = resolvedTenantIds assignments.
Proof.
  induction assignments as [|t ts IH]; [reflexivity|].
  simpl. rewrite IH.
  destruct (extractTenantId (ownProperty t "tenant")); reflexivity.
Qed.

Lemma tenantIdsOfAssignments_resolved (assignments : list JsValue) :
  Forall (fun t => isNullish t = false) assignments →
  tenantIdsOfAssignments assignments = Returns (resolvedTenantIds assignments).
Proof.
  intros H. unfold tenantIdsOfAssignments. rewrite (mapM_assignments _ H).
  cbn. rewrite filter_resolved. reflexivity.
Qed.

Lemma tenants_array_truthy doc assignments :
  js_get_opt doc "tenants" = JsArray assignments → truthy doc = true.
Proof.
  destruct doc; try discriminate; reflexivity.
Qed.

(** C7.  The lookup never fails: when the store's [findByID] throws or
    rejects, the result is the empty sequence; when it yields the user
    document, the result is the sequence of the assignments' tenant
    identifiers, each normalised by [extractTenantId], the unresolvable
    ones discarded, in order. *)
Theorem getUserTenantIds_fails_closed userId payload :
  let lookup := findByID payload
    {| find_collection := "users"; find_id := userId; find_depth := 2 |} in
  (∃ ids, getUserTenantIds userId payload = Returns ids) ∧
  (∀ e, lookup = Throws e → getUserTenantIds userId payload = Returns []) ∧
  (∀ userDoc assignments,
      lookup = Returns userDoc →
      js_get_opt userDoc "tenants" = JsArray assignments →
      Forall (fun t => isNullish t = false) assignments →
      getUserTenantIds userId payload = Returns (resolvedTenantIds assignments)).
Proof.
  intros lookup. split; [apply tryElse_returns|]. split.
  - intros e He. unfold getUserTenantIds. fold lookup. rewrite He. reflexivity.
  - intros userDoc assignments Hdoc Htenants Hall.
    unfold getUserTenantIds. fold lookup. rewrite Hdoc. cbn [mbind Outcome_bind].
    rewrite (tenants_array_truthy _ _ Htenants), Htenants. cbn [truthy isArray andb].
    rewrite (tenantIdsOfAssignments_resolved _ Hall). reflexivity.
Qed.

(** On a store holding a user with three assignments, one of them
    unresolvable, and on a store that fails. *)
Lemma getUserTenantIds_fails_closed_witness :
  getUserTenantIds (JsNumber (Int 1)) (storeHolding storedUser)
  = Returns [JsNumber (Int 7); JsString "t9"]
  ∧ getUserTenantIds (JsNumber (Int 1)) brokenStore = Returns [].
Proof.
  split.
  - refine (proj2 (proj2 (getUserTenantIds_fails_closed _ (storeHolding storedUser)))
              storedUser _ eq_refl eq_refl _).
    repeat constructor.
  - eapply (proj1 (proj2 (getUserTenantIds_fails_closed _ _))). reflexivity.
Defined.

(** ** The access functions (plugin.ts, lines 119-316) *)

Lemma mergeWithOriginal_combined rule args filter :
  CombinedWithDelegate filter args rule (mergeWithOriginal rule args filter).
Proof.
  unfold CombinedWithDelegate, mergeWithOriginal.
  repeat split.
  - intros f props -> Hf. rewrite Hf. reflexivity.
  - intros f r -> Hf Hr. rewrite Hf. cbn [mbind Outcome_bind].
    destruct (String.eqb_spec (js_typeof r) "object"); [contradiction|reflexivity].
  - intros f e -> Hf. rewrite Hf. reflexivity.
  - intros v ->. reflexivity.
Qed.

Lemma originalOr_delegated rule args fallback :
  originalOr rule args fallback = DelegatedOr fallback args rule.
Proof. destruct rule as [v|f]; [destruct v|]; reflexivity. Qed.

Section AccessProperties.

Variable userHasAccessToAllTenants : JsValue → bool.
Variable cookieName : string.
Variable fieldName : string.
Variable originalAccess : Access.

Variables args req user : JsValue.
Hypothesis args_req : js_get args "req" = Returns req.
Hypothesis req_user : js_get req "user" = Returns user.

Lemma createAccess_eq :
  createAccess userHasAccessToAllTenants originalAccess args
  = DelegatedOr (userHasAccessToAllTenants user) args (acc_create originalAccess).
Proof.
  unfold createAccess. rewrite args_req. cbn [mbind Outcome_bind].
  rewrite req_user. cbn [mbind Outcome_bind].
  destruct (userHasAccessToAllTenants user); apply originalOr_delegated.
Qed.

Lemma tenantScopedAccess_member rule ids :
  userHasAccessToAllTenants user = false →
  extractUserTenantIds user = Returns ids →
  tenantScopedAccess userHasAccessToAllTenants cookieName fieldName rule args
  = match ids with
    | [] => Returns (JsBoolean false)
    | _ => mergeWithOriginal rule args (Filter fieldName "in" (JsArray ids))
    end.
Proof.
  intros Hpred Hids. unfold tenantScopedAccess.
  rewrite args_req. cbn [mbind Outcome_bind].
  rewrite req_user. cbn [mbind Outcome_bind].
  rewrite Hpred, Hids. cbn [mbind Outcome_bind].
  destruct ids; reflexivity.
Qed.

Lemma tenantScopedAccess_elevated rule selectedTenant :
  userHasAccessToAllTenants user = true →
  getSelectedTenantFromCookie req cookieName = Returns selectedTenant →
  tenantScopedAccess userHasAccessToAllTenants cookieName fieldName rule args
  = if truthy selectedTenant
    then mergeWithOriginal rule args (Filter fieldName "equals" selectedTenant)
    else DelegatedOr true args rule.
Proof.
  intros Hpred Hsel. unfold tenantScopedAccess.
  rewrite args_req. cbn [mbind Outcome_bind].
  rewrite req_user. cbn [mbind Outcome_bind].
  rewrite Hpred, Hsel. cbn [mbind Outcome_bind].
  destruct (truthy selectedTenant); [reflexivity | apply originalOr_delegated].
Qed.

End AccessProperties.

(** C1, the counterexample: a user without memberships, not elevated, is
    granted [create] by a collection whose own [create] rule grants it
    (lines 132-136 apply the original rule). *)
Lemma create_granted_without_memberships :
  isSuperAdmin newcomer = false
  ∧ extractUserTenantIds newcomer = Returns []
  ∧ createAccess isSuperAdmin openAccess (argsOf (requestOf newcomer))
    = Returns (JsBoolean true)
  ∧ createAccess isSuperAdmin openAccess (argsOf (requestOf newcomer))
    ≠ Returns (JsBoolean false).
Proof. repeat split. discriminate. Qed.

(** C1 (as amended).  For a non-elevated user whose resolved set of
    tenant memberships is empty, [read], [update] and [delete] return
    Deny-All whatever the delegate rule; [create] returns the decision of
    the collection's own [create] rule, and Deny-All when the collection
    has none. *)
Theorem no_memberships_denied
    userHasAccessToAllTenants cookieName fieldName originalAccess args req user :
  js_get args "req" = Returns req →
  js_get req "user" = Returns user →
  userHasAccessToAllTenants user = false →
  extractUserTenantIds user = Returns [] →
  readAccess userHasAccessToAllTenants cookieName fieldName originalAccess args
    = Returns (JsBoolean false)
  ∧ updateAccess userHasAccessToAllTenants cookieName fieldName originalAccess args
    = Returns (JsBoolean false)
  ∧ deleteAccess userHasAccessToAllTenants cookieName fieldName originalAccess args
    = Returns (JsBoolean false)
  ∧ createAccess userHasAccessToAllTenants originalAccess args
    = DelegatedOr false args (acc_create originalAccess).
Proof.
  intros Hreq Huser Hpred Hids.
  unfold readAccess, updateAccess, deleteAccess.
  rewrite !(tenantScopedAccess_member _ _ _ _ _ _ Hreq Huser _ [] Hpred Hids).
  rewrite (createAccess_eq _ _ _ _ _ Hreq Huser), Hpred. auto.
Qed.

(** On a user without memberships: [read] against a collection that
    allows everything, [create] against a collection without rules. *)
Lemma no_memberships_denied_witness :
  readAccess isSuperAdmin "payload-selected-tenant" "tenants" openAccess
    (argsOf (requestOf newcomer)) = Returns (JsBoolean false)
  ∧ createAccess isSuperAdmin emptyAccess (argsOf (requestOf newcomer))
    = Returns (JsBoolean false).
Proof.
  split.
  - refine (proj1 (no_memberships_denied isSuperAdmin _ _ openAccess
              (argsOf (requestOf newcomer)) (requestOf newcomer) newcomer
              eq_refl eq_refl eq_refl eq_refl)).
  - refine (proj2 (proj2 (proj2 (no_memberships_denied isSuperAdmin
              "payload-selected-tenant" "tenants" emptyAccess
              (argsOf (requestOf newcomer)) (requestOf newcomer) newcomer
              eq_refl eq_refl eq_refl eq_refl)))).
Defined.

(** C3.  For a non-elevated user whose resolved tenant set is a
    non-empty list (such as [T1, T2]), [read], [update] and [delete]
    each return the filter [{fieldName.tenant in ids}]: AND-ed with the
    delegate's result when the delegate rule is a function whose result
    is a structured predicate, alone when that result is not structured
    or when there is no delegate function. *)
Theorem members_filtered_by_tenants
    userHasAccessToAllTenants cookieName fieldName originalAccess args req user ids :
  js_get args "req" = Returns req →
  js_get req "user" = Returns user →
  userHasAccessToAllTenants user = false →
  extractUserTenantIds user = Returns ids →
  ids ≠ [] →
  ∀ rule access,
    In (rule, access)
       (scopedAccessFunctions userHasAccessToAllTenants cookieName fieldName
          originalAccess) →
    CombinedWithDelegate (Filter fieldName "in" (JsArray ids)) args rule (access args).
Proof.
  intros Hreq Huser Hpred Hids Hne rule access Hin.
  assert (access = tenantScopedAccess userHasAccessToAllTenants cookieName fieldName rule)
    as ->.
  { simpl in Hin. destruct Hin as [H|[H|[H|[]]]]; injection H as <- <-; reflexivity. }
  rewrite (tenantScopedAccess_member _ _ _ _ _ _ Hreq Huser _ ids Hpred Hids).
  destruct ids; [contradiction|]. apply mergeWithOriginal_combined.
Qed.

(** The specification's scenario: a member of tenants 7 and 9 reads a
    collection without rules, and one whose [read] rule is structured. *)
Lemma members_filtered_by_tenants_witness :
  readAccess isSuperAdmin "payload-selected-tenant" "tenants" emptyAccess
    (argsOf (requestOf tenantUser))
  = Returns (JsObject [("tenants.tenant",
                        JsObject [("in", JsArray [JsNumber (Int 7); JsNumber (Int 9)])])])
  ∧ readAccess isSuperAdmin "payload-selected-tenant" "tenants" publishedOnly
      (argsOf (requestOf tenantUser))
    = Returns (JsObject [("and", JsArray
        [JsObject [("tenants.tenant",
                    JsObject [("in", JsArray [JsNumber (Int 7); JsNumber (Int 9)])])];
         published])]).
Proof.
  split.
  - refine (proj2 (proj2 (proj2 (members_filtered_by_tenants isSuperAdmin
              "payload-selected-tenant" "tenants" emptyAccess
              (argsOf (requestOf tenantUser)) (requestOf tenantUser) tenantUser
              [JsNumber (Int 7); JsNumber (Int 9)]
              eq_refl eq_refl eq_refl eq_refl _ _ _ (or_introl eq_refl))))
            JsUndefined eq_refl).
    discriminate.
  - refine (proj1 (members_filtered_by_tenants isSuperAdmin
              "payload-selected-tenant" "tenants" publishedOnly
              (argsOf (requestOf tenantUser)) (requestOf tenantUser) tenantUser
              [JsNumber (Int 7); JsNumber (Int 9)]
              eq_refl eq_refl eq_refl eq_refl _ _ _ (or_introl eq_refl))
            _ _ eq_refl eq_refl).
    discriminate.
Defined.

(** C4, the counterexample: the cookie value ["0"] makes the selector
    yield the number 0, and the elevated user's [read] is Allow-All, not
    the filter on tenant 0 (line 146 tests the selection for truthiness). *)
Lemma selected_zero_allows_all :
  isSuperAdmin superAdmin = true
  ∧ getSelectedTenantFromCookie
      (requestWithCookie superAdmin "payload-selected-tenant=0")
      "payload-selected-tenant" = Returns (JsNumber (Int 0))
  ∧ readAccess isSuperAdmin "payload-selected-tenant" "tenants" emptyAccess
      (argsOf (requestWithCookie superAdmin "payload-selected-tenant=0"))
    = Returns (JsBoolean true)
  ∧ readAccess isSuperAdmin "payload-selected-tenant" "tenants" emptyAccess
      (argsOf (requestWithCookie superAdmin "payload-selected-tenant=0"))
    ≠ Returns (Filter "tenants" "equals" (JsNumber (Int 0))).
Proof. repeat split. discriminate. Qed.

(** C4 (as amended).  For an elevated user, [read], [update] and
    [delete] depend on the selector's result.  A truthy selection [T] (a
    non-zero number, a non-empty string) gives the filter
    [{fieldName.tenant equals T}], AND-ed with the delegate's result when
    the delegate rule is a function whose result is a structured
    predicate, alone otherwise.  The absent sentinel, and any other falsy
    selection, gives the delegate rule's own decision when the collection
    has one, and Allow-All when it has none. *)
Theorem elevated_scoped_by_selection
    userHasAccessToAllTenants cookieName fieldName originalAccess
    args req user selectedTenant :
  js_get args "req" = Returns req →
  js_get req "user" = Returns user →
  userHasAccessToAllTenants user = true →
  getSelectedTenantFromCookie req cookieName = Returns selectedTenant →
  ∀ rule access,
    In (rule, access)
       (scopedAccessFunctions userHasAccessToAllTenants cookieName fieldName
          originalAccess) →
    (truthy selectedTenant = true →
       CombinedWithDelegate (Filter fieldName "equals" selectedTenant) args rule
         (access args))
    ∧ (truthy selectedTenant = false →
         access args = DelegatedOr true args rule).
Proof.
  intros Hreq Huser Hpred Hsel rule access Hin.
  assert (access = tenantScopedAccess userHasAccessToAllTenants cookieName fieldName rule)
    as ->.
  { simpl in Hin. destruct Hin as [H|[H|[H|[]]]]; injection H as <- <-; reflexivity. }
  rewrite (tenantScopedAccess_elevated _ _ _ _ _ _ Hreq Huser _ _ Hpred Hsel).
  split; intros ->; [apply mergeWithOriginal_combined | reflexivity].
Qed.

(** The specification's scenario: a super-admin with the cookie header
    [payload-selected-tenant=12; other=x]; and one with the value [all]. *)
Lemma elevated_scoped_by_selection_witness :
  readAccess isSuperAdmin "payload-selected-tenant" "tenants" emptyAccess
    (argsOf (requestWithCookie superAdmin "payload-selected-tenant=12; other=x"))
  = Returns (JsObject [("tenants.tenant", JsObject [("equals", JsNumber (Int 12))])])
  ∧ updateAccess isSuperAdmin "payload-selected-tenant" "tenants" emptyAccess
      (argsOf (requestWithCookie superAdmin "payload-selected-tenant=all"))
    = Returns (JsBoolean true).
Proof.
  split.
  - refine (proj2 (proj2 (proj2 (proj1 (elevated_scoped_by_selection isSuperAdmin
              "payload-selected-tenant" "tenants" emptyAccess
              (argsOf (requestWithCookie superAdmin "payload-selected-tenant=12; other=x"))
              (requestWithCookie superAdmin "payload-selected-tenant=12; other=x")
              superAdmin (JsNumber (Int 12))
              eq_refl eq_refl eq_refl eq_refl _ _ (or_introl eq_refl)) eq_refl)))
            JsUndefined eq_refl).
  - refine (proj2 (elevated_scoped_by_selection isSuperAdmin
              "payload-selected-tenant" "tenants" emptyAccess
              (argsOf (requestWithCookie superAdmin "payload-selected-tenant=all"))
              (requestWithCookie superAdmin "payload-selected-tenant=all")
              superAdmin JsNull
              eq_refl eq_refl eq_refl eq_refl _ _ (or_intror (or_introl eq_refl)))
            eq_refl).
Defined.

(** ** The selection does not reach the non-elevated paths *)

Lemma assoc_withoutKey {A : Type} (key k : string) (props : list (string * A)) :
  k ≠ key → assoc k (withoutKey key props) = assoc k props.
Proof.
  intros Hne. induction props as [|[k' v] props IH]; [reflexivity|].
  simpl. destruct (String.eqb_spec k' key) as [->|Hk]; simpl.
  - destruct (String.eqb_spec key k); [congruence|exact IH].
  - rewrite IH. reflexivity.
Qed.

Lemma assoc_user_rewritten (props : list (string * JsValue)) :
  assoc "user"
    (List.map (fun p =>
       if String.eqb (fst p) "headers" then (fst p, withoutCookieHeader (snd p))
       else if String.eqb (fst p) "context" then (fst p, withoutSelectedTenant (snd p))
       else p) props)
  = assoc "user" props.
Proof.
  induction props as [|[k v] props IH]; [reflexivity|].
  cbn [List.map fst snd].
  destruct (String.eqb_spec k "headers") as [->|Hh]; [exact IH|].
  destruct (String.eqb_spec k "context") as [->|Hc]; [exact IH|].
  cbn [assoc]. rewrite IH. reflexivity.
Qed.

Lemma user_withoutSelection req :
  js_get (withoutSelection req) "user" = js_get req "user".
Proof.
  destruct req; try reflexivity.
  unfold js_get. cbn [withoutSelection isNullish isUndefined isNull orb ownProperty].
  rewrite assoc_user_rewritten, assoc_withoutKey by discriminate. reflexivity.
Qed.

Lemma sameExceptSelection_user req1 req2 :
  sameExceptSelection req1 req2 → js_get req1 "user" = js_get req2 "user".
Proof.
  unfold sameExceptSelection. intros H.
  rewrite <- (user_withoutSelection req1), <- (user_withoutSelection req2), H.
  reflexivity.
Qed.

(** C10, the counterexample: two requests of the same non-elevated user
    that differ in their pre-parsed cookies only, and a collection whose
    own [create] rule reads those cookies; [create] grants one and denies
    the other (lines 133-134 hand the whole request to the rule). *)
Lemma delegate_sees_the_cookie :
  isSuperAdmin newcomer = false
  ∧ sameExceptSelection (requestWithCookies newcomer "7") (requestOf newcomer)
  ∧ createAccess isSuperAdmin cookieGatedAccess
      (argsOf (requestWithCookies newcomer "7")) = Returns (JsBoolean true)
  ∧ createAccess isSuperAdmin cookieGatedAccess
      (argsOf (requestOf newcomer)) = Returns (JsBoolean false)
  ∧ createAccess isSuperAdmin cookieGatedAccess
      (argsOf (requestWithCookies newcomer "7"))
    ≠ createAccess isSuperAdmin cookieGatedAccess (argsOf (requestOf newcomer)).
Proof. repeat split. discriminate. Qed.

(** C10 (as amended).  For a non-elevated user, two requests identical
    except for their cookie header, pre-parsed cookies and context
    [selectedTenant] field get the same decision from each of the four
    access functions, provided the collection's own rules, where they are
    functions, decide the two requests alike (in particular when the
    collection has no rule functions): the plugin's own logic never
    consults the selection on these paths. *)
Theorem selection_irrelevant_for_members
    userHasAccessToAllTenants cookieName fieldName originalAccess
    args1 args2 req1 req2 user :
  js_get args1 "req" = Returns req1 →
  js_get args2 "req" = Returns req2 →
  sameExceptSelection req1 req2 →
  js_get req1 "user" = Returns user →
  userHasAccessToAllTenants user = false →
  (∀ rule f,
      In rule [acc_create originalAccess; acc_read originalAccess;
               acc_update originalAccess; acc_delete originalAccess] →
      rule = RuleFunction f → f args1 = f args2) →
  createAccess userHasAccessToAllTenants originalAccess args1
    = createAccess userHasAccessToAllTenants originalAccess args2
  ∧ readAccess userHasAccessToAllTenants cookieName fieldName originalAccess args1
    = readAccess userHasAccessToAllTenants cookieName fieldName originalAccess args2
  ∧ updateAccess userHasAccessToAllTenants cookieName fieldName originalAccess args1
    = updateAccess userHasAccessToAllTenants cookieName fieldName originalAccess args2
  ∧ deleteAccess userHasAccessToAllTenants cookieName fieldName originalAccess args1
    = deleteAccess userHasAccessToAllTenants cookieName fieldName originalAccess args2.
Proof.
  intros Hreq1 Hreq2 Hsame Huser1 Hpred Hrules.
  assert (Huser2 : js_get req2 "user" = Returns user).
  { rewrite <- (sameExceptSelection_user _ _ Hsame). exact Huser1. }
  assert (Hscoped : ∀ rule,
    In rule [acc_create originalAccess; acc_read originalAccess;
             acc_update originalAccess; acc_delete originalAccess] →
    tenantScopedAccess userHasAccessToAllTenants cookieName fieldName rule args1
    = tenantScopedAccess userHasAccessToAllTenants cookieName fieldName rule args2).
  { intros rule Hin. unfold tenantScopedAccess.
    rewrite Hreq1, Hreq2. cbn [mbind Outcome_bind].
    rewrite Huser1, Huser2. cbn [mbind Outcome_bind]. rewrite Hpred.
    destruct (extractUserTenantIds user) as [ids|e]; [|reflexivity].
    cbn [mbind Outcome_bind]. destruct (0 <? length ids)%nat; [|reflexivity].
    unfold mergeWithOriginal. destruct rule as [v|f]; [reflexivity|].
    rewrite (Hrules _ f Hin eq_refl). reflexivity. }
  split.
  - rewrite (createAccess_eq _ _ _ _ _ Hreq1 Huser1),
            (createAccess_eq _ _ _ _ _ Hreq2 Huser2).
    destruct (acc_create originalAccess) as [v|f] eqn:E; [reflexivity|].
    simpl. apply (Hrules (RuleFunction f)); [|reflexivity].
    rewrite <- E. simpl. auto.
  - unfold readAccess, updateAccess, deleteAccess.
    repeat split; apply Hscoped; simpl; auto.
Qed.

(** On the member of tenants 7 and 9, with and without a selection in
    the cookies. *)
Lemma selection_irrelevant_for_members_witness :
  readAccess isSuperAdmin "payload-selected-tenant" "tenants" openAccess
    (argsOf (requestWithCookies tenantUser "9"))
  = readAccess isSuperAdmin "payload-selected-tenant" "tenants" openAccess
      (argsOf (requestOf tenantUser)).
Proof.
  refine (proj1 (proj2 (selection_irrelevant_for_members isSuperAdmin
            "payload-selected-tenant" "tenants" openAccess
            (argsOf (requestWithCookies tenantUser "9")) (argsOf (requestOf tenantUser))
            (requestWithCookies tenantUser "9") (requestOf tenantUser) tenantUser
            eq_refl eq_refl eq_refl eq_refl eq_refl _))).
  intros rule f Hin ->. simpl in Hin.
  destruct Hin as [H|[H|[H|[H|[]]]]]; injection H as <-; reflexivity.
Defined.

(** ** The plugin's rewrite of the configuration (plugin.ts, lines 64-323) *)



(** * Further properties *)

(** ** Resolved identifiers *)

Lemma extractTenantId_defined v : isUndefined (extractTenantId v) = false.
Proof.
  unfold extractTenantId.
  destruct (truthy v) eqn:Ht; [|reflexivity]. cbn [negb].
  destruct (String.eqb (js_typeof v) "number");
    [destruct v; try reflexivity; discriminate Ht|].
  destruct (String.eqb (js_typeof v) "string");
    [destruct v; try reflexivity; discriminate Ht|].
  destruct (String.eqb (js_typeof v) "object"); [|reflexivity].
  match goal with |- context [negb (isUndefined ?x) && _] => destruct (isUndefined x) eqn:E end;
    [reflexivity|].
  cbn [negb andb]. match goal with |- context [isNull ?x] => destruct (isNull x) end;
    [reflexivity | exact E].
Qed.



Lemma mapM_extract_defined (rows ids : list JsValue) :
  mapM (fun t => extractTenantId <$> js_get t "tenant") rows = Returns ids →
  Forall (fun id => isUndefined id = false) ids ∧ length ids = length rows.
Proof.
  revert ids. induction rows as [|t rows IH]; intros ids.
  - intros H. change (Returns [] = Returns ids) in H. injection H as <-.
    split; [constructor | reflexivity].
  - cbn [mapM].
    destruct (js_get t "tenant") as [v|e] eqn:Eg;
      cbn [fmap Outcome_fmap mbind Outcome_bind]; [|intros H; discriminate H].
    destruct (mapM _ rows) as [l|e] eqn:E; cbn [mbind Outcome_bind];
      [|intros H; discriminate H].
    intros H. change (Returns (extractTenantId v :: l) = Returns ids) in H.
    injection H as <-.
    destruct (IH l eq_refl) as [Hall Hlen]. split.
    + constructor; [apply extractTenantId_defined | exact Hall].
    + simpl. rewrite Hlen. reflexivity.
Qed.

Lemma filter_not_null (l : list JsValue) :
  Forall (fun id => isUndefined id = false) l →
  Forall (fun id => isNullish id = false) (List.filter (fun id => negb (isNull id)) l)
  ∧ (length (List.filter (fun id => negb (isNull id)) l) ≤ length l)%nat.
Proof.
  induction 1 as [|id l Hid _ [IH1 IH2]]; [split; [constructor | reflexivity]|].
  simpl. destruct (isNull id) eqn:En; simpl.
  - split; [exact IH1 | lia].
  - split; [|lia]. constructor; [|exact IH1].
    unfold isNullish. rewrite Hid, En. reflexivity.
Qed.

Lemma tenantIdsOfAssignments_clean rows ids :
  tenantIdsOfAssignments rows = Returns ids →
  Forall (fun id => isNullish id = false) ids ∧ (length ids ≤ length rows)%nat.
Proof.
  unfold tenantIdsOfAssignments.
  destruct (mapM _ rows) as [l|e] eqn:E; [|discriminate].
  cbn [mbind Outcome_bind]. intros H. injection H as <-.
  destruct (mapM_extract_defined _ _ E) as [Hall Hlen].
  destruct (filter_not_null l Hall) as [H1 H2]. split; [exact H1 | lia].
Qed.

Lemma getUserTenantIds_of_doc userId payload userDoc :
  findByID payload
    {| find_collection := "users"; find_id := userId; find_depth := 2 |}
  = Returns userDoc →
  getUserTenantIds userId payload
  = Returns (match extractUserTenantIds userDoc with
             | Returns ids => ids
             | Throws _ => []
             end).
Proof.
  intros Hdoc. unfold getUserTenantIds, extractUserTenantIds.
  rewrite Hdoc. cbn [mbind Outcome_bind].
  destruct (js_get_opt userDoc "tenants") as [| |b|n|s|ps|rows|es] eqn:E;
    cbn [truthy isArray negb orb andb];
    rewrite ?andb_false_r, ?orb_true_r; try reflexivity.
  rewrite (tenants_array_truthy _ _ E). cbn [andb].
  destruct (tenantIdsOfAssignments rows); reflexivity.
Qed.

Lemma extractUserTenantIds_clean user ids :
  extractUserTenantIds user = Returns ids →
  Forall (fun id => isNullish id = false) ids.
Proof.
  unfold extractUserTenantIds.
  destruct (js_get_opt user "tenants") as [| |b|n|s|ps|rows|es];
    cbn [truthy isArray negb orb];
    rewrite ?orb_true_r;
    try (intros H; injection H as <-; constructor).
  intros H. exact (proj1 (tenantIdsOfAssignments_clean _ _ H)).
Qed.

Lemma getUserTenantIds_clean userId payload ids :
  getUserTenantIds userId payload = Returns ids →
  Forall (fun id => isNullish id = false) ids.
Proof.
  destruct (findByID payload
    {| find_collection := "users"; find_id := userId; find_depth := 2 |})
    as [userDoc|e] eqn:Hdoc.
  - rewrite (getUserTenantIds_of_doc _ _ _ Hdoc).
    destruct (extractUserTenantIds userDoc) as [l|e] eqn:E.
    + intros H. injection H as <-. exact (extractUserTenantIds_clean _ _ E).
    + intros H. injection H as <-. constructor.
  - unfold getUserTenantIds. rewrite Hdoc. intros H. injection H as <-. constructor.
Qed.

(** X1.  The two ways of resolving a user's tenants agree: looking the
    user up in the store gives what the request-side extraction gives on
    the stored document, and the empty list where that extraction throws
    (an assignment row that is [null] or [undefined]). *)
Theorem membership_lookups_agree userId payload userDoc :
  findByID payload
    {| find_collection := "users"; find_id := userId; find_depth := 2 |}
  = Returns userDoc →
  (∀ ids, extractUserTenantIds userDoc = Returns ids →
          getUserTenantIds userId payload = Returns ids)
  ∧ (∀ e, extractUserTenantIds userDoc = Throws e →
          getUserTenantIds userId payload = Returns []).
Proof.
  intros Hdoc. rewrite (getUserTenantIds_of_doc _ _ _ Hdoc).
  split; [intros ids -> | intros e ->]; reflexivity.
Qed.

(** On the stored sample user, and on a document with a [null] row. *)
Lemma membership_lookups_agree_witness :
  getUserTenantIds (JsNumber (Int 1)) (storeHolding tenantUser)
  = Returns [JsNumber (Int 7); JsNumber (Int 9)]
  ∧ getUserTenantIds (JsNumber (Int 1))
      (storeHolding (JsObject [("tenants", JsArray [JsNull])]))
    = Returns [].
Proof.
  split.
  - refine (proj1 (membership_lookups_agree (JsNumber (Int 1))
              (storeHolding tenantUser) tenantUser eq_refl) _ eq_refl).
  - refine (proj2 (membership_lookups_agree (JsNumber (Int 1))
              (storeHolding (JsObject [("tenants", JsArray [JsNull])]))
              (JsObject [("tenants", JsArray [JsNull])]) eq_refl) _ eq_refl).
Defined.

(** X2.  A resolved list of tenant identifiers, from the request's user
    or from the store, holds neither [null] nor [undefined]; from the
    request's user it is no longer than the list of assignments. *)
Theorem resolved_ids_are_clean user userId payload :
  (∀ ids, extractUserTenantIds user = Returns ids →
     Forall (fun id => isNullish id = false) ids
     ∧ ∀ rows, js_get_opt user "tenants" = JsArray rows →
               (length ids ≤ length rows)%nat)
  ∧ (∀ ids, getUserTenantIds userId payload = Returns ids →
     Forall (fun id => isNullish id = false) ids).
Proof.
  split.
  - intros ids Hids. split; [exact (extractUserTenantIds_clean _ _ Hids)|].
    intros rows Hrows. unfold extractUserTenantIds in Hids. rewrite Hrows in Hids.
    exact (proj2 (tenantIdsOfAssignments_clean _ _ Hids)).
  - intros ids. apply getUserTenantIds_clean.
Qed.

(** On the stored sample user, one of whose three rows does not resolve. *)
Lemma resolved_ids_are_clean_witness :
  Forall (fun id => isNullish id = false) [JsNumber (Int 7); JsString "t9"]
  ∧ (length [JsNumber (Int 7); JsString "t9"] ≤ 3)%nat.
Proof.
  destruct (proj1 (resolved_ids_are_clean storedUser JsNull brokenStore)
              [JsNumber (Int 7); JsString "t9"] eq_refl) as [H1 H2].
  split; [exact H1 | exact (H2 _ eq_refl)].
Defined.

(** ** The filter options of tenant relationship fields (helpers.ts,
       [getTenantFilterOptions]) *)

Lemma getTenantFilterOptions_regular args :
  isSuperAdmin (fo_user args) = false →
  getTenantFilterOptions args
  = if truthy (js_get_opt (fo_user args) "id") then
      match fo_req args with
      | Some req =>
          tenantIds ← getUserTenantIds (js_get_opt (fo_user args) "id")
                        (default missingPayload (req_payload req));
          Returns (match tenantIds with
                   | [] => JsBoolean false
                   | _ => JsObject [("id", JsObject [("in", JsArray tenantIds)])]
                   end)
      | None => Throws (TypeError "Cannot read properties of undefined or null")
      end
    else Returns (JsBoolean false).
Proof.
  unfold getTenantFilterOptions, isSuperAdmin. intros ->.
  destruct (truthy _); [|reflexivity].
  destruct (fo_req args) as [req|]; [|reflexivity].
  destruct (getUserTenantIds _ _) as [[|id ids]|e]; reflexivity.
Qed.

(** X3.  The filter options are Allow-All for super-admins and for no
    one else: for any other user the result, when there is one, is
    Deny-All or a filter [{id: {in: ids}}] on a non-empty list that holds
    neither [null] nor [undefined]. *)
Theorem filter_options_open_for_super_admins_only args :
  (isSuperAdmin (fo_user args) = true →
     getTenantFilterOptions args = Returns (JsBoolean true))
  ∧ (isSuperAdmin (fo_user args) = false →
     ∀ v, getTenantFilterOptions args = Returns v →
       v = JsBoolean false
       ∨ ∃ ids, ids ≠ [] ∧ Forall (fun id => isNullish id = false) ids
                ∧ v = JsObject [("id", JsObject [("in", JsArray ids)])]).
Proof.
  split.
  - unfold getTenantFilterOptions, isSuperAdmin. intros ->. reflexivity.
  - intros Hrole v. rewrite (getTenantFilterOptions_regular _ Hrole).
    destruct (truthy _); [|intros H; injection H as <-; left; reflexivity].
    destruct (fo_req args) as [req|]; [|discriminate].
    destruct (getUserTenantIds _ _) as [ids|e] eqn:E; [|discriminate].
    cbn [mbind Outcome_bind]. intros H. injection H as <-.
    destruct ids as [|id ids]; [left; reflexivity|].
    right. exists (id :: ids). split; [discriminate|]. split; [|reflexivity].
    exact (getUserTenantIds_clean _ _ _ E).
Qed.

(** A super-admin, and the stored sample user looked up in a store. *)
Lemma filter_options_open_for_super_admins_only_witness :
  getTenantFilterOptions (filterArgs superAdmin None) = Returns (JsBoolean true)
  ∧ (JsObject [("id", JsObject [("in", JsArray [JsNumber (Int 7); JsString "t9"])])]
       = JsBoolean false
     ∨ ∃ ids, ids ≠ [] ∧ Forall (fun id => isNullish id = false) ids
              ∧ JsObject [("id", JsObject [("in", JsArray [JsNumber (Int 7); JsString "t9"])])]
                = JsObject [("id", JsObject [("in", JsArray ids)])]).
Proof.
  split.
  - exact (proj1 (filter_options_open_for_super_admins_only
                    (filterArgs superAdmin None)) eq_refl).
  - exact (proj2 (filter_options_open_for_super_admins_only
                    (filterArgs storedUser (Some (storeHolding storedUser))))
             eq_refl _ eq_refl).
Defined.

(** X4.  For a user who is not a super-admin the filter options fail
    closed: a user without an [id], a request without a store, and a
    store whose lookup fails all give Deny-All. *)
Theorem filter_options_fail_closed args req :
  isSuperAdmin (fo_user args) = false →
  fo_req args = Some req →
  truthy (js_get_opt (fo_user args) "id") = false
  ∨ req_payload req = None
  ∨ (∃ payload e, req_payload req = Some payload
       ∧ findByID payload
           {| find_collection := "users";
              find_id := js_get_opt (fo_user args) "id";
              find_depth := 2 |} = Throws e) →
  getTenantFilterOptions args = Returns (JsBoolean false).
Proof.
  intros Hrole Hreq Hcase. rewrite (getTenantFilterOptions_regular _ Hrole), Hreq.
  destruct (truthy _) eqn:Hid; [|reflexivity].
  destruct Hcase as [H|[H|(payload & e & H & Hfail)]].
  - discriminate H.
  - rewrite H. reflexivity.
  - rewrite H. change (default missingPayload (Some payload)) with payload.
    unfold getUserTenantIds. rewrite Hfail. reflexivity.
Qed.

(** The stored sample user, against a store that fails. *)
Lemma filter_options_fail_closed_witness :
  getTenantFilterOptions (filterArgs storedUser (Some brokenStore))
  = Returns (JsBoolean false).
Proof.
  refine (filter_options_fail_closed (filterArgs storedUser (Some brokenStore))
            {| req_payload := Some brokenStore |} eq_refl eq_refl _).
  right. right. exists brokenStore, (Thrown (JsString "connection lost")).
  split; reflexivity.
Defined.

(** X5.  A user who is not a super-admin is offered exactly the tenants
    the store assigns to them: the filter lists the identifiers the
    stored assignments resolve to, in order, and the result is Deny-All
    when there are none. *)
Theorem filter_options_offer_own_tenants args req payload userDoc rows :
  isSuperAdmin (fo_user args) = false →
  truthy (js_get_opt (fo_user args) "id") = true →
  fo_req args = Some req →
  req_payload req = Some payload →
  findByID payload
    {| find_collection := "users";
       find_id := js_get_opt (fo_user args) "id";
       find_depth := 2 |} = Returns userDoc →
  js_get_opt userDoc "tenants" = JsArray rows →
  Forall (fun t => isNullish t = false) rows →
  getTenantFilterOptions args
  = Returns (match resolvedTenantIds rows with
             | [] => JsBoolean false
             | ids => JsObject [("id", JsObject [("in", JsArray ids)])]
             end).
Proof.
  intros Hrole Hid Hreq Hpayload Hdoc Hrows Hwf.
  rewrite (getTenantFilterOptions_regular _ Hrole), Hid, Hreq, Hpayload.
  change (default missingPayload (Some payload)) with payload.
  rewrite (getUserTenantIds_of_doc _ _ _ Hdoc).
  unfold extractUserTenantIds. rewrite Hrows. cbn [truthy isArray negb orb].
  rewrite (tenantIdsOfAssignments_resolved _ Hwf). cbn [mbind Outcome_bind].
  destruct (resolvedTenantIds rows); reflexivity.
Qed.

(** The stored sample user: of its three rows, two resolve. *)
Lemma filter_options_offer_own_tenants_witness :
  getTenantFilterOptions (filterArgs storedUser (Some (storeHolding storedUser)))
  = Returns (JsObject [("id", JsObject [("in",
               JsArray [JsNumber (Int 7); JsString "t9"])])]).
Proof.
  refine (filter_options_offer_own_tenants
            (filterArgs storedUser (Some (storeHolding storedUser)))
            {| req_payload := Some (storeHolding storedUser) |}
            (storeHolding storedUser) storedUser
            [JsObject [("tenant", JsNumber (Int 7))];
             JsObject [("tenant", JsObject [("name", JsString "orphan")])];
             JsObject [("tenant", JsObject [("id", JsString "t9")])]]
            eq_refl eq_refl eq_refl eq_refl eq_refl eq_refl _).
  repeat constructor.
Defined.

(** ** The reverse lookup (helpers.ts, [getUserIdsForTenants]) *)

Lemma matchingUserId_wellFormed tenantIds user :
  wellFormedUser user →
  matchingUserId tenantIds user
  = Returns (if belongsToSome tenantIds user then Some (ownProperty user "id") else None).
Proof.
  intros [Hnn Hrows]. unfold matchingUserId, belongsToSome, js_get, js_get_opt in *.
  rewrite Hnn in *. cbn [mbind Outcome_bind].
  destruct (ownProperty user "tenants") as [| |b|n|s|ps|rows|es] eqn:E;
    cbn [truthy isArray andb]; rewrite ?andb_false_r; try reflexivity.
  rewrite (tenantIdsOfAssignments_resolved _ (Hrows rows eq_refl)).
  cbn [mbind Outcome_bind].
  destruct (existsb (includes tenantIds) (resolvedTenantIds rows)); reflexivity.
Qed.

Lemma collectUserIds_wellFormed tenantIds docs :
  Forall wellFormedUser docs →
  collectUserIds tenantIds docs
  = Returns (List.map (fun user => ownProperty user "id")
               (List.filter (belongsToSome tenantIds) docs)).
Proof.
  induction 1 as [|user docs Hu _ IH]; [reflexivity|].
  cbn [collectUserIds]. rewrite (matchingUserId_wellFormed _ _ Hu), IH.
  cbn [mbind Outcome_bind List.filter].
  destruct (belongsToSome tenantIds user); reflexivity.
Qed.

Lemma collectUserIds_nullish tenantIds docs :
  Exists (fun user => isNullish user = true) docs →
  ∃ e, collectUserIds tenantIds docs = Throws e.
Proof.
  induction 1 as [user docs Hu | user docs _ [e IH]]; cbn [collectUserIds].
  - unfold matchingUserId, js_get. rewrite Hu. eexists. reflexivity.
  - rewrite IH. destruct (matchingUserId tenantIds user); eexists; reflexivity.
Qed.

Lemma getUserIdsForTenants_docs tenantIds payload users docs :
  tenantIds ≠ [] →
  find payload
    {| query_collection := "users"; query_depth := 2; query_limit := 1000 |}
  = Returns users →
  js_get_opt users "docs" = JsArray docs →
  getUserIdsForTenants tenantIds payload
  = Returns (match collectUserIds tenantIds docs with
             | Returns userIds => userIds
             | Throws _ => []
             end).
Proof.
  intros Hne Hfind Hdocs. unfold getUserIdsForTenants.
  destruct tenantIds as [|t ts]; [contradiction|]. cbn [List.length Nat.eqb].
  rewrite Hfind. cbn [mbind Outcome_bind].
  assert (Hget : js_get users "docs" = Returns (JsArray docs)).
  { unfold js_get, js_get_opt in *. destruct (isNullish users); [discriminate|].
    rewrite Hdocs. reflexivity. }
  rewrite Hget. cbn [mbind Outcome_bind truthy isArray andb].
  destruct (collectUserIds (t :: ts) docs); reflexivity.
Qed.

Lemma sameValueZero_refl v t : asTenantId v = Some t → sameValueZero v t = true.
Proof.
  destruct v as [| |b|[|z]|s|ps|xs|es]; intros H; try discriminate H;
    injection H as <-; simpl;
    [reflexivity | apply Z.eqb_refl | apply String.eqb_refl].
Qed.

Lemma includes_incl tenantIds tenantIds' id :
  (∀ t, In t tenantIds → In t tenantIds') →
  includes tenantIds id = true → includes tenantIds' id = true.
Proof.
  unfold includes. intros Hsub H. apply existsb_exists in H as (t & Ht & Heq).
  apply existsb_exists. exists t. split; [apply Hsub, Ht | exact Heq].
Qed.

Lemma belongsToSome_incl tenantIds tenantIds' user :
  (∀ t, In t tenantIds → In t tenantIds') →
  belongsToSome tenantIds user = true → belongsToSome tenantIds' user = true.
Proof.
  unfold belongsToSome. intros Hsub.
  destruct (js_get_opt user "tenants"); try discriminate.
  intros H. apply existsb_exists in H as (id & Hid & Hin).
  apply existsb_exists. exists id. split; [exact Hid|].
  exact (includes_incl _ _ _ Hsub Hin).
Qed.

(** X6.  On well-formed user documents the reverse lookup returns, in
    the order of the documents, the [id] of exactly those users one of
    whose resolved tenant identifiers is among the given ones. *)
Theorem getUserIdsForTenants_members tenantIds payload users docs :
  tenantIds ≠ [] →
  find payload
    {| query_collection := "users"; query_depth := 2; query_limit := 1000 |}
  = Returns users →
  js_get_opt users "docs" = JsArray docs →
  Forall wellFormedUser docs →
  getUserIdsForTenants tenantIds payload
  = Returns (List.map (fun user => ownProperty user "id")
               (List.filter (belongsToSome tenantIds) docs)).
Proof.
  intros Hne Hfind Hdocs Hwf.
  rewrite (getUserIdsForTenants_docs _ _ _ _ Hne Hfind Hdocs),
    (collectUserIds_wellFormed _ _ Hwf). reflexivity.
Qed.

(** Of the two stored users, the first belongs to tenant 7. *)
Lemma getUserIdsForTenants_members_witness :
  getUserIdsForTenants [IdNumber (Int 7)] (usersStore [storedUser; secondUser])
  = Returns [JsNumber (Int 1)].
Proof.
  refine (getUserIdsForTenants_members [IdNumber (Int 7)]
            (usersStore [storedUser; secondUser])
            (JsObject [("docs", JsArray [storedUser; secondUser])])
            [storedUser; secondUser] _ eq_refl eq_refl _).
  - discriminate.
  - repeat constructor; intros rows H; vm_compute in H; injection H as <-;
      repeat constructor.
Defined.

(** X7.  The reverse lookup fails closed: it gives the empty list for an
    empty list of tenants, whatever the store; when the store's [find]
    fails; and when one of the documents found is [null] or [undefined],
    whatever the other documents are. *)
Theorem getUserIdsForTenants_fails_closed tenantIds payload :
  let query :=
    {| query_collection := "users"; query_depth := 2; query_limit := 1000 |} in
  (tenantIds = [] → getUserIdsForTenants tenantIds payload = Returns [])
  ∧ (∀ e, find payload query = Throws e →
          getUserIdsForTenants tenantIds payload = Returns [])
  ∧ (∀ users docs,
        find payload query = Returns users →
        js_get_opt users "docs" = JsArray docs →
        Exists (fun user => isNullish user = true) docs →
        getUserIdsForTenants tenantIds payload = Returns []).
Proof.
  intros query. split; [intros ->; reflexivity|]. split.
  - intros e He. unfold getUserIdsForTenants. fold query. rewrite He.
    destruct (length tenantIds =? 0)%nat; reflexivity.
  - intros users docs Hfind Hdocs Hbad.
    destruct tenantIds as [|t ts]; [reflexivity|].
    rewrite (getUserIdsForTenants_docs (t :: ts) _ _ _ ltac:(discriminate) Hfind Hdocs).
    destruct (collectUserIds_nullish (t :: ts) docs Hbad) as [e ->]. reflexivity.
Qed.

(** A store one of whose documents is [null]. *)
Lemma getUserIdsForTenants_fails_closed_witness :
  getUserIdsForTenants [IdNumber (Int 7)] (usersStore [storedUser; JsNull])
  = Returns [].
Proof.
  refine (proj2 (proj2 (getUserIdsForTenants_fails_closed [IdNumber (Int 7)]
                          (usersStore [storedUser; JsNull])))
            (JsObject [("docs", JsArray [storedUser; JsNull])])
            [storedUser; JsNull] eq_refl eq_refl _).
  right. left. reflexivity.
Defined.

(** X8.  Asking the reverse lookup about more tenants never loses a
    user: every user found for a list of tenants is found for any list
    that contains it. *)
Theorem getUserIdsForTenants_monotone tenantIds tenantIds' payload users docs :
  tenantIds ≠ [] →
  (∀ t, In t tenantIds → In t tenantIds') →
  find payload
    {| query_collection := "users"; query_depth := 2; query_limit := 1000 |}
  = Returns users →
  js_get_opt users "docs" = JsArray docs →
  Forall wellFormedUser docs →
  ∃ userIds userIds',
    getUserIdsForTenants tenantIds payload = Returns userIds
    ∧ getUserIdsForTenants tenantIds' payload = Returns userIds'
    ∧ ∀ id, In id userIds → In id userIds'.
Proof.
  intros Hne Hsub Hfind Hdocs Hwf.
  assert (Hne' : tenantIds' ≠ []).
  { destruct tenantIds as [|t ts]; [contradiction|].
    intros E. specialize (Hsub t (or_introl eq_refl)). rewrite E in Hsub. exact Hsub. }
  rewrite (getUserIdsForTenants_docs _ _ _ _ Hne Hfind Hdocs),
    (getUserIdsForTenants_docs _ _ _ _ Hne' Hfind Hdocs),
    !(collectUserIds_wellFormed _ _ Hwf).
  eexists _, _. split; [reflexivity|]. split; [reflexivity|].
  intros id Hin. apply in_map_iff in Hin as (user & <- & Hu).
  apply filter_In in Hu as [Hu Hb].
  apply in_map_iff. exists user. split; [reflexivity|].
  apply filter_In. split; [exact Hu | exact (belongsToSome_incl _ _ _ Hsub Hb)].
Qed.

(** Tenant 7 alone, and tenants 8 and 7. *)
Lemma getUserIdsForTenants_monotone_witness :
  ∃ userIds userIds',
    getUserIdsForTenants [IdNumber (Int 7)] (usersStore [storedUser; secondUser])
    = Returns userIds
    ∧ getUserIdsForTenants [IdNumber (Int 8); IdNumber (Int 7)]
        (usersStore [storedUser; secondUser])
      = Returns userIds'
    ∧ ∀ id, In id userIds → In id userIds'.
Proof.
  refine (getUserIdsForTenants_monotone [IdNumber (Int 7)]
            [IdNumber (Int 8); IdNumber (Int 7)]
            (usersStore [storedUser; secondUser])
            (JsObject [("docs", JsArray [storedUser; secondUser])])
            [storedUser; secondUser] _ _ eq_refl eq_refl _).
  - discriminate.
  - intros t [<-|[]]. right. left. reflexivity.
  - repeat constructor; intros rows H; vm_compute in H; injection H as <-;
      repeat constructor.
Defined.

(** X9.  The two lookups agree: a user to whom the forward lookup
    assigns a tenant is found by the reverse lookup for that tenant,
    provided the store's [find] returns the user's document among
    well-formed ones. *)
Theorem reverse_lookup_finds_members
    userId store userDoc ids tenant tenantId payload users docs :
  findByID store
    {| find_collection := "users"; find_id := userId; find_depth := 2 |}
  = Returns userDoc →
  getUserTenantIds userId store = Returns ids →
  In tenant ids →
  asTenantId tenant = Some tenantId →
  find payload
    {| query_collection := "users"; query_depth := 2; query_limit := 1000 |}
  = Returns users →
  js_get_opt users "docs" = JsArray docs →
  Forall wellFormedUser docs →
  In userDoc docs →
  ∃ userIds,
    getUserIdsForTenants [tenantId] payload = Returns userIds
    ∧ In (ownProperty userDoc "id") userIds.
Proof.
  intros Hdoc Hids Hin Hid Hfind Hdocs Hwf Hmember.
  rewrite (getUserIdsForTenants_docs [tenantId] _ _ _ ltac:(discriminate) Hfind Hdocs),
    (collectUserIds_wellFormed _ _ Hwf).
  eexists. split; [reflexivity|].
  apply in_map_iff. exists userDoc. split; [reflexivity|].
  apply filter_In. split; [exact Hmember|].
  rewrite (getUserTenantIds_of_doc _ _ _ Hdoc) in Hids. injection Hids as Hids.
  pose proof (proj1 (List.Forall_forall _ _) Hwf userDoc Hmember) as [_ Hrows].
  unfold belongsToSome. unfold extractUserTenantIds in Hids.
  destruct (js_get_opt userDoc "tenants") as [| |b|n|s|ps|rows|es] eqn:E;
    cbn [truthy isArray negb orb] in Hids; rewrite ?orb_true_r in Hids;
    try (rewrite <- Hids in Hin; destruct Hin).
  rewrite (tenantIdsOfAssignments_resolved _ (Hrows rows eq_refl)) in Hids.
  rewrite <- Hids in Hin.
  apply existsb_exists. exists tenant. split; [exact Hin|].
  unfold includes. cbn [existsb]. rewrite (sameValueZero_refl _ _ Hid). reflexivity.
Qed.

(** The stored sample user and its tenant ["t9"]. *)
Lemma reverse_lookup_finds_members_witness :
  ∃ userIds,
    getUserIdsForTenants [IdString "t9"] (usersStore [secondUser; storedUser])
    = Returns userIds
    ∧ In (JsNumber (Int 1)) userIds.
Proof.
  refine (reverse_lookup_finds_members (JsNumber (Int 1)) (storeHolding storedUser)
            storedUser [JsNumber (Int 7); JsString "t9"] (JsString "t9")
            (IdString "t9") (usersStore [secondUser; storedUser])
            (JsObject [("docs", JsArray [secondUser; storedUser])])
            [secondUser; storedUser] eq_refl eq_refl _ eq_refl eq_refl eq_refl _ _).
  - right. left. reflexivity.
  - repeat constructor; intros rows H; vm_compute in H; injection H as <-;
      repeat constructor.
  - right. left. reflexivity.
Defined.

(** ** The access functions, whatever the delegate rule *)

Lemma mergeWithOriginal_keeps rule args filter v :
  mergeWithOriginal rule args filter = Returns v → KeepsTo filter v.
Proof.
  unfold mergeWithOriginal, KeepsTo. destruct rule as [w|f].
  - intros H. injection H as <-. left. reflexivity.
  - destruct (f args) as [r|e]; cbn [mbind Outcome_bind]; [|discriminate].
    destruct (String.eqb (js_typeof r) "object"); intros H; injection H as <-;
      [right; exists r | left]; reflexivity.
Qed.

Lemma tenantIdsOfAssignments_nullish rows :
  Exists (fun t => isNullish t = true) rows →
  ∃ e, tenantIdsOfAssignments rows = Throws e.
Proof.
  intros H. unfold tenantIdsOfAssignments.
  assert (Hm : ∃ e, mapM (fun t => extractTenantId <$> js_get t "tenant") rows
                    = Throws e).
  { induction H as [t rows Ht | t rows _ [e IH]]; cbn [mapM].
    - assert (js_get t "tenant"
              = Throws (TypeError "Cannot read properties of undefined or null")) as ->
        by (unfold js_get; rewrite Ht; reflexivity).
      eexists. reflexivity.
    - rewrite IH. destruct (extractTenantId <$> js_get t "tenant");
        eexists; reflexivity. }
  destruct Hm as [e ->]. eexists. reflexivity.
Qed.

Lemma tenantScopedAccess_member_decision
    userHasAccessToAllTenants cookieName fieldName args req user rule decision :
  js_get args "req" = Returns req →
  js_get req "user" = Returns user →
  userHasAccessToAllTenants user = false →
  tenantScopedAccess userHasAccessToAllTenants cookieName fieldName rule args
    = Returns decision →
  decision ≠ JsBoolean true
  ∧ (decision = JsBoolean false
     ∨ ∃ ids, ids ≠ [] ∧ extractUserTenantIds user = Returns ids
              ∧ KeepsTo (Filter fieldName "in" (JsArray ids)) decision).
Proof.
  intros Hreq Huser Hpred.
  destruct (extractUserTenantIds user) as [ids|e] eqn:Hids.
  - rewrite (tenantScopedAccess_member _ _ _ _ _ _ Hreq Huser _ ids Hpred Hids).
    destruct ids as [|id ids].
    + intros H. injection H as <-. split; [discriminate | left; reflexivity].
    + intros H. apply mergeWithOriginal_keeps in H. split.
      * destruct H as [-> | [r ->]]; discriminate.
      * right. exists (id :: ids). split; [discriminate|]. split; [reflexivity | exact H].
  - unfold tenantScopedAccess. rewrite Hreq. cbn [mbind Outcome_bind].
    rewrite Huser. cbn [mbind Outcome_bind]. rewrite Hpred, Hids. discriminate.
Qed.

(** X10.  For a non-elevated user, [read], [update] and [delete] never
    grant more than the user's tenants, whatever the collection's own
    rule is or returns: the decision, when there is one, is Deny-All, or
    the filter on the user's resolved tenants, or that filter's
    conjunction with the rule's result; it is never Allow-All. *)
Theorem members_never_unrestricted
    userHasAccessToAllTenants cookieName fieldName originalAccess
    args req user rule access decision :
  js_get args "req" = Returns req →
  js_get req "user" = Returns user →
  userHasAccessToAllTenants user = false →
  In (rule, access)
     (scopedAccessFunctions userHasAccessToAllTenants cookieName fieldName
        originalAccess) →
  access args = Returns decision →
  decision ≠ JsBoolean true
  ∧ (decision = JsBoolean false
     ∨ ∃ ids, ids ≠ [] ∧ extractUserTenantIds user = Returns ids
              ∧ KeepsTo (Filter fieldName "in" (JsArray ids)) decision).
Proof.
  intros Hreq Huser Hpred Hin.
  assert (access = tenantScopedAccess userHasAccessToAllTenants cookieName fieldName rule)
    as ->.
  { simpl in Hin. destruct Hin as [H|[H|[H|[]]]]; injection H as <- <-; reflexivity. }
  exact (tenantScopedAccess_member_decision _ _ _ _ _ _ _ _ Hreq Huser Hpred).
Qed.

(** The member of tenants 7 and 9 reading a collection whose own rule
    returns a filter. *)
Lemma members_never_unrestricted_witness :
  And (Filter "tenants" "in" (JsArray [JsNumber (Int 7); JsNumber (Int 9)])) published
    ≠ JsBoolean true
  ∧ (And (Filter "tenants" "in" (JsArray [JsNumber (Int 7); JsNumber (Int 9)])) published
       = JsBoolean false
     ∨ ∃ ids, ids ≠ [] ∧ extractUserTenantIds tenantUser = Returns ids
              ∧ KeepsTo (Filter "tenants" "in" (JsArray ids))
                  (And (Filter "tenants" "in"
                          (JsArray [JsNumber (Int 7); JsNumber (Int 9)])) published)).
Proof.
  exact (members_never_unrestricted isSuperAdmin "payload-selected-tenant" "tenants"
           publishedOnly (argsOf (requestOf tenantUser)) (requestOf tenantUser)
           tenantUser (acc_read publishedOnly)
           (readAccess isSuperAdmin "payload-selected-tenant" "tenants" publishedOnly)
           _ eq_refl eq_refl eq_refl (or_introl eq_refl) eq_refl).
Defined.

(** X11.  The request-side extraction has no [try]: for a non-elevated
    user whose [tenants] array holds a [null] or [undefined] row,
    [read], [update] and [delete] are rejected, whatever the other rows
    and the collection's own rule. *)
Theorem member_with_null_row_is_rejected
    userHasAccessToAllTenants cookieName fieldName originalAccess
    args req user rows rule access :
  js_get args "req" = Returns req →
  js_get req "user" = Returns user →
  userHasAccessToAllTenants user = false →
  js_get_opt user "tenants" = JsArray rows →
  Exists (fun t => isNullish t = true) rows →
  In (rule, access)
     (scopedAccessFunctions userHasAccessToAllTenants cookieName fieldName
        originalAccess) →
  ∃ e, access args = Throws e.
Proof.
  intros Hreq Huser Hpred Hrows Hbad Hin.
  assert (access = tenantScopedAccess userHasAccessToAllTenants cookieName fieldName rule)
    as ->.
  { simpl in Hin. destruct Hin as [H|[H|[H|[]]]]; injection H as <- <-; reflexivity. }
  unfold tenantScopedAccess. rewrite Hreq. cbn [mbind Outcome_bind].
  rewrite Huser. cbn [mbind Outcome_bind]. rewrite Hpred.
  unfold extractUserTenantIds. rewrite Hrows. cbn [truthy isArray negb orb].
  destruct (tenantIdsOfAssignments_nullish rows Hbad) as [e ->].
  eexists. reflexivity.
Qed.

(** A member whose second assignment row is [null]. *)
Lemma member_with_null_row_is_rejected_witness :
  ∃ e, updateAccess isSuperAdmin "payload-selected-tenant" "tenants" openAccess
         (argsOf (requestOf userWithNullRow)) = Throws e.
Proof.
  refine (member_with_null_row_is_rejected isSuperAdmin "payload-selected-tenant"
            "tenants" openAccess (argsOf (requestOf userWithNullRow))
            (requestOf userWithNullRow) userWithNullRow
            [JsObject [("tenant", JsNumber (Int 7))]; JsNull]
            (acc_update openAccess)
            (updateAccess isSuperAdmin "payload-selected-tenant" "tenants" openAccess)
            eq_refl eq_refl eq_refl eq_refl _ (or_intror (or_introl eq_refl))).
  right. left. reflexivity.
Defined.

(** ** The plugin on the whole configuration *)

(** X12.  The plugin keeps the configuration's shape: the same number of
    collections with the same slugs in the same order, every property
    the plugin does not own, and each collection's host fields, to which
    it appends at most one field. *)
Theorem plugin_keeps_collections
    (pluginOptions : MultiTenantPluginOptions) (incomingConfig : Config)
    (hostCollections : list CollectionConfig) :
  cfg_collections incomingConfig = Some hostCollections →
  ∃ collections',
    cfg_collections (multiTenantPlugin pluginOptions incomingConfig) = Some collections'
    ∧ cfg_rest (multiTenantPlugin pluginOptions incomingConfig) = cfg_rest incomingConfig
    ∧ col_slug <$> collections' = col_slug <$> hostCollections
    ∧ col_rest <$> collections' = col_rest <$> hostCollections
    ∧ Forall2 (fun host collection' =>
         collection' = host
         ∨ ∃ field, col_fields collection'
                    = Some (default [] (col_fields host) ++ [field])%list)
        hostCollections collections'.
Proof.
  intros Hcs. unfold multiTenantPlugin. cbn [cfg_collections cfg_rest]. rewrite Hcs.
  eexists. split; [reflexivity|]. split; [reflexivity|].
  match goal with |- context [?f <$> hostCollections] => set (augment := f) end.
  assert (Hone : ∀ host, col_slug (augment host) = col_slug host
                         ∧ col_rest (augment host) = col_rest host
                         ∧ (augment host = host
                            ∨ ∃ field, col_fields (augment host)
                                = Some (default [] (col_fields host) ++ [field])%list)).
  { intros host. unfold augment.
    destruct (default ∅ (opt_collections pluginOptions) !! col_slug host);
      cbn [col_slug col_rest col_fields]; repeat split; eauto. }
  clearbody augment. clear Hcs.
  induction hostCollections as [|host rest IH]; [repeat split; constructor|].
  destruct IH as (Hs & Hr & Hf).
  destruct (Hone host) as (H1 & H2 & H3).
  cbn [fmap list_fmap] in *. rewrite H1, H2, Hs, Hr.
  repeat split. constructor; assumption.
Qed.

(** The sample host configuration, of which [pages] is scoped. *)
Lemma plugin_keeps_collections_witness :
  ∃ collections',
    cfg_collections (multiTenantPlugin scopePages hostConfig) = Some collections'
    ∧ cfg_rest (multiTenantPlugin scopePages hostConfig) = cfg_rest hostConfig
    ∧ col_slug <$> collections' = ["pages"; "media"]
    ∧ col_rest <$> collections' = [[]; [("upload", JsBoolean true)]]
    ∧ Forall2 (fun host collection' =>
         collection' = host
         ∨ ∃ field, col_fields collection'
                    = Some (default [] (col_fields host) ++ [field])%list)
        [pagesCollection; mediaCollection] collections'.
Proof.
  exact (plugin_keeps_collections scopePages hostConfig
           [pagesCollection; mediaCollection] eq_refl).
Defined.



(** ** Cookie headers of several cookies *)










(** ** The selector on a request whose [Cookie] line is its only source *)










(** ** The declared result type of the selector *)






(** ** The selection of an elevated user, from the cookie to the filter *)


